(** * Yatube API: the serializers and viewsets of [yatube_api/api]

    A shallow embedding of [api/serializers.py] and [api/views.py] together
    with the slice of Django REST framework they are written against
    (field validation, permission checks, the generic [ModelViewSet]
    actions), over an explicit database state.

    Layout:
    - the database state (the tables of [posts.models]);
    - requests, responses and the exception monad;
    - serializer fields and the four serializers;
    - permission classes and the generic viewset actions;
    - the four viewsets and the API as a transition system;
    - the properties. *)

From Stdlib Require Import ZArith String Ascii List DecimalString.
From stdpp Require Import base gmap strings list fin_maps pretty.

Local Open Scope Z_scope.
Local Open Scope string_scope.

(* ===================================================================== *)
(** * Database state *)
(* ===================================================================== *)

(** A table maps the primary key to the row; a model instance is the pair
    of both.  Foreign keys hold the primary key they refer to. *)

Abbreviation instance Row := (Z * Row)%type (only parsing).

Module User.
(** Modelled from the spec: the user model that [posts.models] exports
    ([models.py] is not among the sources): an identity with a unique
    username. *)
Record t := { username : string }.
End User.

Module Group.
(** Modelled from the spec: [posts.models.Group], a named category. *)
Record t := { title : string }.
End Group.

Module Post.
(** Modelled from the spec: [posts.models.Post]: text content, exactly one
    author and optionally one group.  The creation timestamp is set by the
    database and read by no operation below; it is left out. *)
Record t := { text : string; author : Z; group : option Z }.
End Post.

Module Comment.
(** Modelled from the spec: [posts.models.Comment]: text, exactly one
    author and exactly one post (creation timestamp left out as above). *)
Record t := { text : string; author : Z; post : Z }.
End Comment.

Module Follow.
(** Modelled from the spec: [posts.models.Follow]: a directed edge from
    [user] (the follower) to [following] (the followed), under the field
    names the serializer and the viewset use. *)
Record t := { user : Z; following : Z }.
End Follow.

Module Store.
(** The tables, each with the sequence its primary keys are drawn from
    (an [AutoField] never hands out a key twice). *)
Record t := {
  users : gmap Z User.t;
  groups : gmap Z Group.t;
  posts : gmap Z Post.t;
  post_seq : Z;
  comments : gmap Z Comment.t;
  comment_seq : Z;
  follows : gmap Z Follow.t;
  follow_seq : Z
}.

Definition with_posts (st : t) (m : gmap Z Post.t) (n : Z) : t :=
  {| users := users st; groups := groups st;
     posts := m; post_seq := n;
     comments := comments st; comment_seq := comment_seq st;
     follows := follows st; follow_seq := follow_seq st |}.

Definition with_comments (st : t) (m : gmap Z Comment.t) (n : Z) : t :=
  {| users := users st; groups := groups st;
     posts := posts st; post_seq := post_seq st;
     comments := m; comment_seq := n;
     follows := follows st; follow_seq := follow_seq st |}.

Definition with_follows (st : t) (m : gmap Z Follow.t) (n : Z) : t :=
  {| users := users st; groups := groups st;
     posts := posts st; post_seq := post_seq st;
     comments := comments st; comment_seq := comment_seq st;
     follows := m; follow_seq := n |}.
End Store.

(** The stored usernames.  The username column is unique: the well-formed
    databases are those with [NoDup (usernames st)]. *)
Definition usernames (st : Store.t) : list string :=
  (λ kv, User.username kv.2) <$> map_to_list (Store.users st).

(** The sequence of the Follow table is ahead of every key in use. *)
Definition follow_seq_fresh (st : Store.t) : Prop :=
  map_Forall (λ k _, k < Store.follow_seq st) (Store.follows st).

(** [qs.exists()] *)
Definition qs_exists {Row} (P : Z → Row → bool) (qs : gmap Z Row) : bool :=
  existsb (λ kv, P kv.1 kv.2) (map_to_list qs).

(** Modelled from the spec: the database-level uniqueness of the pair
    (user, following) on [Follow]; whether [models.py] declares it is a
    parameter of the embedding ([unique_constraint] below).  The row [pk]
    is the one being written. *)
Definition follow_pair_taken (st : Store.t) (pk : Z) (f : Follow.t) : bool :=
  qs_exists (λ k g,
    bool_decide (k ≠ pk) &&
    bool_decide (Follow.user g = Follow.user f) &&
    bool_decide (Follow.following g = Follow.following f)) (Store.follows st).

(* ===================================================================== *)
(** * Requests, responses, exceptions *)
(* ===================================================================== *)

(** A value of the parsed request body. *)
Inductive jval :=
| JNull
| JStr (s : string)
| JInt (z : Z).

Module Request.
Record t := {
  user : option (instance User.t); (* request.user; None is AnonymousUser *)
  data : gmap string jval;         (* request.data *)
  kwargs : gmap string Z;          (* self.kwargs, captured from the URL *)
  search : list string             (* the terms of the ?search= parameter *)
}.

Definition with_data (req : t) (d : gmap string jval) : t :=
  {| user := user req; data := d; kwargs := kwargs req;
     search := search req |}.
End Request.

(** The viewset actions the router maps HTTP methods to:
    GET (list, retrieve), POST, PUT, PATCH, DELETE. *)
Inductive action := List | Create | Retrieve | Update | PartialUpdate | Destroy.

(** [request.method in permissions.SAFE_METHODS] *)
Definition SAFE_METHODS (a : action) : bool :=
  match a with List | Retrieve => true | _ => false end.

(** The exceptions a request can end in.  [ValidationError] carries the
    pairs (field, message); [ServerError] is any exception the framework
    does not turn into a response of its own. *)
Inductive api_error :=
| NotAuthenticated
| PermissionDenied
| Http404
| MethodNotAllowed
| ValidationError (detail : list (string * string))
| ServerError (exc : string).

Inductive result (A : Type) :=
| Ok (a : A)
| Raise (e : api_error).
Arguments Ok {A} a.
Arguments Raise {A} e.

Definition bind {A B} (m : result A) (k : A → result B) : result B :=
  match m with
  | Ok a => k a
  | Raise e => Raise e
  end.

Notation "'let*' x ':=' m 'in' k" := (bind m (λ x, k))
  (at level 10, x pattern, m at level 100, k at level 200).

Inductive Response (Row : Type) :=
| HTTP_200_list (rows : gmap Z Row)
| HTTP_200 (pk : Z) (row : Row)
| HTTP_201 (pk : Z) (row : Row)
| HTTP_204
| Error (e : api_error).
Arguments HTTP_200_list {Row} rows.
Arguments HTTP_200 {Row} pk row.
Arguments HTTP_201 {Row} pk row.
Arguments HTTP_204 {Row}.
Arguments Error {Row} e.

(* ===================================================================== *)
(** * Serializer fields (rest_framework.fields, rest_framework.relations) *)
(* ===================================================================== *)

(** What running one field ends in: a validated value, [SkipField] (the
    field contributes nothing), a [ValidationError] for that field, or an
    exception that is not a validation error. *)
Inductive field_result (A : Type) :=
| Value (a : A)
| SkipField
| Invalid (message : string)
| Unhandled (exc : string).
Arguments Value {A} a.
Arguments SkipField {A}.
Arguments Invalid {A} message.
Arguments Unhandled {A} exc.

Section Field.
Context {A : Type}.
Variable required : bool.        (* Field.required *)
Variable null : option A.        (* allow_null, with what None validates to *)
Variable default : option A.     (* Field.default, evaluated in its context *)
Variable to_internal_value : jval → field_result A.

(** [Field.run_validation] with [Field.validate_empty_values]; [data] is
    [None] when the key is absent from the request body. *)
Definition Field_run_validation (partial : bool) (data : option jval)
  : field_result A :=
  match data with
  | None =>
      if partial then SkipField
      else if required then Invalid "required"
      else match default with
           | Some d => Value d
           | None => SkipField
           end
  | Some JNull =>
      match null with
      | Some n => Value n
      | None => Invalid "null"
      end
  | Some v => to_internal_value v
  end.

(** [RelatedField.run_validation]: the empty string counts as None. *)
Definition RelatedField_run_validation (partial : bool) (data : option jval)
  : field_result A :=
  Field_run_validation partial
    (match data with
     | Some (JStr "") => Some JNull
     | _ => data
     end).
End Field.

(** [str.strip()], on the ASCII characters Python counts as whitespace. *)
Definition is_space (c : ascii) : bool :=
  let n := nat_of_ascii c in
  ((9 <=? n)%nat && (n <=? 13)%nat) || ((28 <=? n)%nat && (n <=? 32)%nat).

Fixpoint lstrip (s : string) : string :=
  match s with
  | String c s' => if is_space c then lstrip s' else s
  | EmptyString => EmptyString
  end.

Definition strip (s : string) : string :=
  String.rev (lstrip (String.rev (lstrip s))).

(** [str(data)] for the values a request body holds. *)
Definition str (v : jval) : string :=
  match v with
  | JNull => "None"
  | JStr s => s
  | JInt z => pretty z
  end.

(** [CharField] as [ModelSerializer] builds it for a [TextField]: required,
    [allow_blank] and [allow_null] off, [trim_whitespace] on. *)
Definition CharField_run_validation (partial : bool) (data : option jval)
  : field_result string :=
  let super :=
    Field_run_validation true None None (λ v, Value (strip (str v)))
      partial data in
  match data with
  | Some (JStr s) => if bool_decide (strip s = "") then Invalid "blank" else super
  | _ => super
  end.

(** [queryset.get(username=slug)] on [User.objects.all()]. *)
Definition get_user_by_username (st : Store.t) (slug : string)
  : field_result (instance User.t) :=
  match map_to_list (filter (λ kv, User.username kv.2 = slug)
                            (Store.users st)) with
  | [] => Invalid "does_not_exist"
  | [u] => Value u
  | _ => Unhandled "MultipleObjectsReturned"
  end.

(** [SlugRelatedField(queryset=User.objects.all(), slug_field="username")] *)
Definition SlugRelatedField_to_internal_value (st : Store.t) (v : jval)
  : field_result (instance User.t) :=
  get_user_by_username st (str v).

(** Python's [int(s)] on a decimal numeral. *)
Definition int_of_str (s : string) : option Z :=
  Z.of_int <$> NilEmpty.int_of_string s.

(** [PrimaryKeyRelatedField(queryset=Group.objects.all())]; the validated
    value is held as the key of the group found. *)
Definition PrimaryKeyRelatedField_to_internal_value (st : Store.t) (v : jval)
  : field_result (option Z) :=
  let pk := match v with
            | JInt z => Some z
            | JStr s => int_of_str s
            | JNull => None
            end in
  match pk with
  | None => Invalid "incorrect_type"
  | Some k =>
      match Store.groups st !! k with
      | Some _ => Value (Some k)
      | None => Invalid "does_not_exist"
      end
  end.

(** The entry one field adds to the [errors] dict of
    [Serializer.to_internal_value]. *)
Definition field_errors {A} (name : string) (r : field_result A)
  : list (string * string) :=
  match r with
  | Invalid msg => [(name, msg)]
  | _ => []
  end.

(** The entry one field adds to the validated data. *)
Definition field_value {A} (r : field_result A) : option A :=
  match r with
  | Value a => Some a
  | _ => None
  end.

(** The exception, if any, that aborts the loop over the fields. *)
Definition field_exception {A} (r : field_result A) : option string :=
  match r with
  | Unhandled e => Some e
  | _ => None
  end.

(** The first exception of a run over the fields, in field order. *)
Fixpoint first_exception (es : list (option string)) : option string :=
  match es with
  | [] => None
  | Some e :: _ => Some e
  | None :: es' => first_exception es'
  end.

(** [Serializer.to_internal_value]: an exception aborts the run, otherwise
    the errors of all fields are raised together, otherwise the validated
    data is returned. *)
Definition to_internal_value_result {D} (exceptions : list (option string))
    (errors : list (string * string)) (validated : D) : result D :=
  match first_exception exceptions with
  | Some e => Raise (ServerError e)
  | None =>
      match errors with
      | [] => Ok validated
      | _ => Raise (ValidationError errors)
      end
  end.

(* ===================================================================== *)
(** * api/serializers.py *)
(* ===================================================================== *)

(** Who a user-valued attribute holds: a row of the user table, or
    [None] for the AnonymousUser object. *)
Abbreviation principal := (option (instance User.t)) (only parsing).

Module PostSerializer.
(** The validated data, with the attributes [save] may add to it.
    [author] is [read_only]: validation never fills it. *)
Record validated_data := {
  text : option string;
  group : option (option Z);
  author : option principal
}.

Definition to_internal_value (st : Store.t) (req : Request.t) (partial : bool)
  : result validated_data :=
  let data := Request.data req in
  let r_text := CharField_run_validation partial (data !! "text") in
  let r_group :=
    RelatedField_run_validation false (Some None) None
      (PrimaryKeyRelatedField_to_internal_value st) partial
      (data !! "group") in
  to_internal_value_result
    [field_exception r_text; field_exception r_group]
    (field_errors "text" r_text ++ field_errors "group" r_group)
    {| text := field_value r_text; group := field_value r_group;
       author := None |}.

Definition run_validation (st : Store.t) (req : Request.t)
    (inst : option (instance Post.t)) (partial : bool)
  : result validated_data :=
  to_internal_value st req partial.

(** [ModelSerializer.create]: [Post.objects.create] on the validated data. *)
Definition create (st : Store.t) (d : validated_data)
  : result (instance Post.t * Store.t) :=
  match author d with
  | Some (Some u) =>
      let row := {| Post.text := default "" (text d);
                    Post.author := u.1;
                    Post.group := default None (group d) |} in
      let pk := Store.post_seq st in
      Ok ((pk, row),
          Store.with_posts st (<[pk := row]> (Store.posts st)) (pk + 1))
  | Some None => Raise (ServerError "ValueError")
  | None => Raise (ServerError "IntegrityError")
  end.

(** [ModelSerializer.update]: set every validated attribute, then save. *)
Definition update (st : Store.t) (inst : instance Post.t)
    (d : validated_data) : result (instance Post.t * Store.t) :=
  match author d with
  | Some None => Raise (ServerError "ValueError")
  | a =>
      let row := {| Post.text := default (Post.text inst.2) (text d);
                    Post.author := match a with
                                   | Some (Some u) => u.1
                                   | _ => Post.author inst.2
                                   end;
                    Post.group := default (Post.group inst.2) (group d) |} in
      Ok ((inst.1, row),
          Store.with_posts st (<[inst.1 := row]> (Store.posts st))
            (Store.post_seq st))
  end.

(** [serializer.save], its keyword arguments already merged into [d]. *)
Definition save (st : Store.t) (inst : option (instance Post.t))
    (d : validated_data) : result (instance Post.t * Store.t) :=
  match inst with
  | Some i => update st i d
  | None => create st d
  end.
End PostSerializer.

Module CommentSerializer.
(** The validated data, with the attributes [save] may add to it.
    [author] is [read_only] and [post] is in [read_only_fields]:
    validation fills neither. *)
Record validated_data := {
  text : option string;
  author : option principal;
  post : option Z
}.

Definition to_internal_value (st : Store.t) (req : Request.t) (partial : bool)
  : result validated_data :=
  let data := Request.data req in
  let r_text := CharField_run_validation partial (data !! "text") in
  to_internal_value_result
    [field_exception r_text]
    (field_errors "text" r_text)
    {| text := field_value r_text; author := None; post := None |}.

Definition run_validation (st : Store.t) (req : Request.t)
    (inst : option (instance Comment.t)) (partial : bool)
  : result validated_data :=
  to_internal_value st req partial.

(** [ModelSerializer.create] *)
Definition create (st : Store.t) (d : validated_data)
  : result (instance Comment.t * Store.t) :=
  match author d, post d with
  | Some (Some u), Some p =>
      let row := {| Comment.text := default "" (text d);
                    Comment.author := u.1;
                    Comment.post := p |} in
      let pk := Store.comment_seq st in
      Ok ((pk, row),
          Store.with_comments st (<[pk := row]> (Store.comments st)) (pk + 1))
  | Some None, _ => Raise (ServerError "ValueError")
  | _, _ => Raise (ServerError "IntegrityError")
  end.

(** [ModelSerializer.update] *)
Definition update (st : Store.t) (inst : instance Comment.t)
    (d : validated_data) : result (instance Comment.t * Store.t) :=
  match author d with
  | Some None => Raise (ServerError "ValueError")
  | a =>
      let row := {| Comment.text := default (Comment.text inst.2) (text d);
                    Comment.author := match a with
                                      | Some (Some u) => u.1
                                      | _ => Comment.author inst.2
                                      end;
                    Comment.post := default (Comment.post inst.2) (post d) |} in
      Ok ((inst.1, row),
          Store.with_comments st (<[inst.1 := row]> (Store.comments st))
            (Store.comment_seq st))
  end.

Definition save (st : Store.t) (inst : option (instance Comment.t))
    (d : validated_data) : result (instance Comment.t * Store.t) :=
  match inst with
  | Some i => update st i d
  | None => create st d
  end.
End CommentSerializer.

Module FollowSerializer.
Record validated_data := {
  user : option principal;
  following : option (instance User.t)
}.

Definition self_follow_message : string := "Подписка на себя не возможна".
Definition unique_message : string := "Вы уже подписаны на этого пользователя".

(** [serializers.CurrentUserDefault()] *)
Definition CurrentUserDefault (req : Request.t) : principal :=
  Request.user req.

(** [value == self.context["request"].user]: model instances are equal
    when their primary keys are; no row equals the AnonymousUser. *)
Definition is_request_user (req : Request.t) (value : instance User.t) : bool :=
  match Request.user req with
  | Some u => bool_decide (value.1 = u.1)
  | None => false
  end.

Definition validate_following (req : Request.t) (value : instance User.t)
  : field_result (instance User.t) :=
  if is_request_user req value then Invalid self_follow_message
  else Value value.

(** The [user] field: a writable slug field over all users, defaulting to
    the current user. *)
Definition user_field (st : Store.t) (req : Request.t) (partial : bool)
  : field_result principal :=
  RelatedField_run_validation false None (Some (CurrentUserDefault req))
    (λ v, match SlugRelatedField_to_internal_value st v with
          | Value u => Value (Some u)
          | SkipField => SkipField
          | Invalid m => Invalid m
          | Unhandled e => Unhandled e
          end)
    partial (Request.data req !! "user").

(** The [following] field, followed by [validate_following]. *)
Definition following_field (st : Store.t) (req : Request.t) (partial : bool)
  : field_result (instance User.t) :=
  match RelatedField_run_validation true None None
          (SlugRelatedField_to_internal_value st)
          partial (Request.data req !! "following") with
  | Value v => validate_following req v
  | r => r
  end.

Definition to_internal_value (st : Store.t) (req : Request.t) (partial : bool)
  : result validated_data :=
  let r_user := user_field st req partial in
  let r_following := following_field st req partial in
  to_internal_value_result
    [field_exception r_user; field_exception r_following]
    (field_errors "user" r_user ++ field_errors "following" r_following)
    {| user := field_value r_user; following := field_value r_following |}.

(** [UniqueTogetherValidator(queryset=Follow.objects.all(),
    fields=["user", "following"], message=...)].  On creation both fields
    must be present; on update a field that was not provided is read from
    the instance, and the instance itself is excluded from the search. *)
Definition UniqueTogetherValidator (st : Store.t)
    (inst : option (instance Follow.t)) (attrs : validated_data)
  : result unit :=
  let missing : list (string * string) :=
    ((match user attrs with None => [("user", "required")] | _ => [] end) ++
     (match following attrs with
      | None => [("following", "required")]
      | _ => []
      end))%list in
  let u := match user attrs, inst with
           | Some p, _ => Some (fst <$> p)
           | None, Some i => Some (Some (Follow.user i.2))
           | None, None => None
           end in
  let f := match following attrs, inst with
           | Some v, _ => Some v.1
           | None, Some i => Some (Follow.following i.2)
           | None, None => None
           end in
  match inst, missing, u, f with
  | None, _ :: _, _, _ => Raise (ValidationError missing)
  | _, _, Some (Some upk), Some fpk =>
      if qs_exists (λ k g,
           bool_decide (Some k ≠ fst <$> inst) &&
           bool_decide (Follow.user g = upk) &&
           bool_decide (Follow.following g = fpk)) (Store.follows st)
      then Raise (ValidationError [("non_field_errors", unique_message)])
      else Ok ()
  | _, _, _, _ => Raise (ServerError "TypeError")
  end.

(** [Serializer.run_validation]: the fields, then [Meta.validators]. *)
Definition run_validation (st : Store.t) (req : Request.t)
    (inst : option (instance Follow.t)) (partial : bool)
  : result validated_data :=
  let* value := to_internal_value st req partial in
  let* _ := UniqueTogetherValidator st inst value in
  Ok value.

(** [ModelSerializer.create]; [unique_constraint] tells whether the table
    enforces the uniqueness of the pair. *)
Definition create (unique_constraint : bool) (st : Store.t)
    (d : validated_data) : result (instance Follow.t * Store.t) :=
  match user d, following d with
  | Some (Some u), Some f =>
      let row := {| Follow.user := u.1; Follow.following := f.1 |} in
      let pk := Store.follow_seq st in
      if unique_constraint && follow_pair_taken st pk row
      then Raise (ServerError "IntegrityError")
      else Ok ((pk, row),
               Store.with_follows st (<[pk := row]> (Store.follows st))
                 (pk + 1))
  | Some None, _ => Raise (ServerError "ValueError")
  | _, _ => Raise (ServerError "IntegrityError")
  end.

(** [ModelSerializer.update] *)
Definition update (unique_constraint : bool) (st : Store.t)
    (inst : instance Follow.t) (d : validated_data)
  : result (instance Follow.t * Store.t) :=
  match user d with
  | Some None => Raise (ServerError "ValueError")
  | a =>
      let row := {| Follow.user := match a with
                                   | Some (Some u) => u.1
                                   | _ => Follow.user inst.2
                                   end;
                    Follow.following := match following d with
                                        | Some f => f.1
                                        | None => Follow.following inst.2
                                        end |} in
      if unique_constraint && follow_pair_taken st inst.1 row
      then Raise (ServerError "IntegrityError")
      else Ok ((inst.1, row),
               Store.with_follows st (<[inst.1 := row]> (Store.follows st))
                 (Store.follow_seq st))
  end.

Definition save (unique_constraint : bool) (st : Store.t)
    (inst : option (instance Follow.t)) (d : validated_data)
  : result (instance Follow.t * Store.t) :=
  match inst with
  | Some i => update unique_constraint st i d
  | None => create unique_constraint st d
  end.
End FollowSerializer.

(* ===================================================================== *)
(** * Permissions (rest_framework.permissions, api/permissions.py) *)
(* ===================================================================== *)

Record Permission (Row : Type) := {
  has_permission : action → Request.t → bool;
  has_object_permission : action → Request.t → instance Row → bool
}.
Arguments has_permission {Row} p a req.
Arguments has_object_permission {Row} p a req obj.

(** [request.user.is_authenticated] *)
Definition is_authenticated (req : Request.t) : bool :=
  match Request.user req with
  | Some _ => true
  | None => false
  end.

Definition IsAuthenticated {Row} : Permission Row := {|
  has_permission := λ _ req, is_authenticated req;
  has_object_permission := λ _ _ _, true
|}.

Definition IsAuthenticatedOrReadOnly {Row} : Permission Row := {|
  has_permission := λ a req, SAFE_METHODS a || is_authenticated req;
  has_object_permission := λ _ _ _, true
|}.

(** Modelled from the spec: [IsAuthorOrReadOnly] of [api/permissions.py],
    which is not among the sources: reading is open to every caller,
    creating to authenticated callers, and updating or deleting a resource
    to the caller who is its author.  [author] reads the author of a row
    ([None] for a model without one). *)
Definition IsAuthorOrReadOnly {Row} (author : Row → option Z)
  : Permission Row := {|
  has_permission := λ a req, SAFE_METHODS a || is_authenticated req;
  has_object_permission := λ a req obj,
    SAFE_METHODS a ||
    match Request.user req, author obj.2 with
    | Some u, Some pk => bool_decide (pk = u.1)
    | _, _ => false
    end
|}.

(* ===================================================================== *)
(** * The generic viewset (rest_framework.viewsets, .mixins, .generics) *)
(* ===================================================================== *)

(** What a viewset class fixes: the actions it routes, its permission
    classes, its queryset and filter backends, its serializer class
    ([run_validation], [save]), its [perform_create] and how the model
    deletes an instance. *)
Record ViewSet (Row Data : Type) := {
  http_actions : action → bool;
  permission_classes : list (Permission Row);
  get_queryset : Request.t → Store.t → result (gmap Z Row);
  filter_queryset : Request.t → Store.t → gmap Z Row → gmap Z Row;
  run_validation :
    Store.t → Request.t → option (instance Row) → bool → result Data;
  save :
    Store.t → option (instance Row) → Data → result (instance Row * Store.t);
  perform_create :
    Request.t → Store.t → Data → result (instance Row * Store.t);
  delete : Store.t → instance Row → Store.t
}.
Arguments http_actions {Row Data} v a.
Arguments permission_classes {Row Data} v.
Arguments get_queryset {Row Data} v req st.
Arguments filter_queryset {Row Data} v req st qs.
Arguments run_validation {Row Data} v st req inst partial.
Arguments save {Row Data} v st inst d.
Arguments perform_create {Row Data} v req st d.
Arguments delete {Row Data} v st inst.

(** [django.shortcuts.get_object_or_404(Model, id=...)] *)
Definition get_object_or_404 {Row} (table : gmap Z Row) (id : option Z)
  : result (instance Row) :=
  match id with
  | Some k =>
      match table !! k with
      | Some row => Ok (k, row)
      | None => Raise Http404
      end
  | None => Raise Http404
  end.

Section GenericViewSet.
Context {Row Data : Type} (V : ViewSet Row Data).

(** [APIView.permission_denied] *)
Definition permission_denied (req : Request.t) : api_error :=
  if is_authenticated req then PermissionDenied else NotAuthenticated.

(** [APIView.check_permissions] *)
Definition check_permissions (a : action) (req : Request.t) : result unit :=
  if forallb (λ p, has_permission p a req) (permission_classes V)
  then Ok ()
  else Raise (permission_denied req).

(** [APIView.check_object_permissions] *)
Definition check_object_permissions (a : action) (req : Request.t)
    (obj : instance Row) : result unit :=
  if forallb (λ p, has_object_permission p a req obj) (permission_classes V)
  then Ok ()
  else Raise (permission_denied req).

(** [GenericAPIView.get_object]: look the key of the URL up in the
    filtered queryset, then check the object permissions. *)
Definition get_object (a : action) (req : Request.t) (st : Store.t)
  : result (instance Row) :=
  let* qs := get_queryset V req st in
  match Request.kwargs req !! "pk" with
  | None => Raise (ServerError "AssertionError")
  | Some pk =>
      let* obj := get_object_or_404 (filter_queryset V req st qs) (Some pk) in
      let* _ := check_object_permissions a req obj in
      Ok obj
  end.

(** [UpdateModelMixin.update]; [perform_update] is [serializer.save()]. *)
Definition update_action (partial : bool) (a : action) (req : Request.t)
    (st : Store.t) : result (instance Row * Store.t) :=
  let* obj := get_object a req st in
  let* d := run_validation V st req (Some obj) partial in
  save V st (Some obj) d.

(** [APIView.dispatch] on a routed action: the permission checks of
    [initial], then the handler of the action.  A list answers with the
    filtered queryset, which pagination and rendering consume. *)
Definition dispatch (a : action) (req : Request.t) (st : Store.t)
  : Response Row * Store.t :=
  match check_permissions a req with
  | Raise e => (Error e, st)
  | Ok _ =>
      if negb (http_actions V a) then (Error MethodNotAllowed, st)
      else
        match a with
        | List =>
            match get_queryset V req st with
            | Ok qs => (HTTP_200_list (filter_queryset V req st qs), st)
            | Raise e => (Error e, st)
            end
        | Create =>
            match (let* d := run_validation V st req None false in
                   perform_create V req st d) with
            | Ok (obj, st') => (HTTP_201 obj.1 obj.2, st')
            | Raise e => (Error e, st)
            end
        | Retrieve =>
            match get_object a req st with
            | Ok obj => (HTTP_200 obj.1 obj.2, st)
            | Raise e => (Error e, st)
            end
        | Update =>
            match update_action false a req st with
            | Ok (obj, st') => (HTTP_200 obj.1 obj.2, st')
            | Raise e => (Error e, st)
            end
        | PartialUpdate =>
            match update_action true a req st with
            | Ok (obj, st') => (HTTP_200 obj.1 obj.2, st')
            | Raise e => (Error e, st)
            end
        | Destroy =>
            match get_object a req st with
            | Ok obj => (HTTP_204, delete V st obj)
            | Raise e => (Error e, st)
            end
        end
  end.
End GenericViewSet.

(* ===================================================================== *)
(** * Reverse relations, deletion and search on the models *)
(* ===================================================================== *)

(** Modelled from the spec: [post.comments], the reverse relation of the
    foreign key [Comment.post]. *)
Definition post_comments (st : Store.t) (post : instance Post.t)
  : gmap Z Comment.t :=
  filter (λ kv, Comment.post kv.2 = post.1) (Store.comments st).

(** Modelled from the spec: [user.followers], the reverse relation the
    viewset reads the subscriptions of a user from: the edges on which the
    user is the follower. *)
Definition user_followers (st : Store.t) (u : instance User.t)
  : gmap Z Follow.t :=
  filter (λ kv, Follow.user kv.2 = u.1) (Store.follows st).

(** Modelled from the spec: [post.delete()]; a comment belongs to exactly
    one post and goes with it. *)
Definition delete_post (st : Store.t) (obj : instance Post.t) : Store.t :=
  Store.with_comments
    (Store.with_posts st (base.delete obj.1 (Store.posts st))
       (Store.post_seq st))
    (filter (λ kv, Comment.post kv.2 ≠ obj.1) (Store.comments st))
    (Store.comment_seq st).

Definition delete_comment (st : Store.t) (obj : instance Comment.t)
  : Store.t :=
  Store.with_comments st (base.delete obj.1 (Store.comments st))
    (Store.comment_seq st).

Definition delete_follow (st : Store.t) (obj : instance Follow.t) : Store.t :=
  Store.with_follows st (base.delete obj.1 (Store.follows st))
    (Store.follow_seq st).

(** Case folding on the ASCII letters. *)
Definition lower (c : ascii) : ascii :=
  let n := nat_of_ascii c in
  if (65 <=? n)%nat && (n <=? 90)%nat then ascii_of_nat (n + 32) else c.

Fixpoint lowercase (s : string) : string :=
  match s with
  | String c s' => String (lower c) (lowercase s')
  | EmptyString => EmptyString
  end.

Fixpoint contains (needle hay : string) : bool :=
  String.prefix needle hay ||
  match hay with
  | String _ hay' => contains needle hay'
  | EmptyString => false
  end.

(** The [icontains] lookup. *)
Definition icontains (value term : string) : bool :=
  contains (lowercase term) (lowercase value).

(** [filters.SearchFilter] with [search_fields = ("following__username",)]:
    every search term must occur in the username of the followed user;
    without terms the queryset is returned as it is. *)
Definition SearchFilter (req : Request.t) (st : Store.t)
    (qs : gmap Z Follow.t) : gmap Z Follow.t :=
  filter (λ kv,
    forallb (λ term,
      match Store.users st !! Follow.following kv.2 with
      | Some u => icontains (User.username u) term
      | None => false
      end) (Request.search req) = true) qs.

(* ===================================================================== *)
(** * api/views.py *)
(* ===================================================================== *)

Module PostViewSet.
(** [serializer.save(author=self.request.user)] *)
Definition perform_create (req : Request.t) (st : Store.t)
    (d : PostSerializer.validated_data)
  : result (instance Post.t * Store.t) :=
  PostSerializer.save st None
    {| PostSerializer.text := PostSerializer.text d;
       PostSerializer.group := PostSerializer.group d;
       PostSerializer.author := Some (Request.user req) |}.
End PostViewSet.

(** The class attributes of [PostViewSet]. *)
Definition PostView : ViewSet Post.t PostSerializer.validated_data := {|
  http_actions := λ _, true;
  permission_classes :=
    [IsAuthenticatedOrReadOnly; IsAuthorOrReadOnly (λ p, Some (Post.author p))];
  get_queryset := λ _ st, Ok (Store.posts st);
  filter_queryset := λ _ _ qs, qs;
  run_validation := PostSerializer.run_validation;
  save := PostSerializer.save;
  perform_create := PostViewSet.perform_create;
  delete := delete_post
|}.


Module CommentViewSet.
Definition get_queryset (req : Request.t) (st : Store.t)
  : result (gmap Z Comment.t) :=
  let* post := get_object_or_404 (Store.posts st)
                 (Request.kwargs req !! "post_id") in
  Ok (post_comments st post).

(** [self.kwargs["post_id"]] raises [KeyError] on a missing key. *)
Definition perform_create (req : Request.t) (st : Store.t)
    (d : CommentSerializer.validated_data)
  : result (instance Comment.t * Store.t) :=
  match Request.kwargs req !! "post_id" with
  | None => Raise (ServerError "KeyError")
  | Some post_id =>
      let* post := get_object_or_404 (Store.posts st) (Some post_id) in
      CommentSerializer.save st None
        {| CommentSerializer.text := CommentSerializer.text d;
           CommentSerializer.author := Some (Request.user req);
           CommentSerializer.post := Some post.1 |}
  end.
End CommentViewSet.

(** The class attributes of [CommentViewSet]. *)
Definition CommentView : ViewSet Comment.t CommentSerializer.validated_data := {|
  http_actions := λ _, true;
  permission_classes :=
    [IsAuthenticatedOrReadOnly;
     IsAuthorOrReadOnly (λ c, Some (Comment.author c))];
  get_queryset := CommentViewSet.get_queryset;
  filter_queryset := λ _ _ qs, qs;
  run_validation := CommentSerializer.run_validation;
  save := CommentSerializer.save;
  perform_create := CommentViewSet.perform_create;
  delete := delete_comment
|}.


(** [GroupViewSet], a [ReadOnlyModelViewSet]: only [list] and [retrieve]
    are routed, and [GroupSerializer] never validates or saves. *)
Definition GroupView : ViewSet Group.t unit := {|
  http_actions := SAFE_METHODS;
  permission_classes :=
    [IsAuthenticatedOrReadOnly; IsAuthorOrReadOnly (λ _, None)];
  get_queryset := λ _ st, Ok (Store.groups st);
  filter_queryset := λ _ _ qs, qs;
  run_validation := λ _ _ _ _, Raise MethodNotAllowed;
  save := λ _ _ _, Raise MethodNotAllowed;
  perform_create := λ _ _ _, Raise MethodNotAllowed;
  delete := λ st _, st
|}.

Module FollowViewSet.
(** [self.request.user.followers.all()]; the AnonymousUser has no such
    attribute. *)
Definition get_queryset (req : Request.t) (st : Store.t)
  : result (gmap Z Follow.t) :=
  match Request.user req with
  | Some user => Ok (user_followers st user)
  | None => Raise (ServerError "AttributeError")
  end.

(** [serializer.save(user=self.request.user)] *)
Definition perform_create (unique_constraint : bool) (req : Request.t)
    (st : Store.t) (d : FollowSerializer.validated_data)
  : result (instance Follow.t * Store.t) :=
  FollowSerializer.save unique_constraint st None
    {| FollowSerializer.user := Some (Request.user req);
       FollowSerializer.following := FollowSerializer.following d |}.
End FollowViewSet.

(** The class attributes of [FollowViewSet]. *)
Definition FollowView (unique_constraint : bool)
  : ViewSet Follow.t FollowSerializer.validated_data := {|
  http_actions := λ _, true;
  permission_classes := [IsAuthenticated];
  get_queryset := FollowViewSet.get_queryset;
  filter_queryset := SearchFilter;
  run_validation := FollowSerializer.run_validation;
  save := FollowSerializer.save unique_constraint;
  perform_create := FollowViewSet.perform_create unique_constraint;
  delete := delete_follow
|}.


(* ===================================================================== *)
(** * The API as a transition system *)
(* ===================================================================== *)

(** The four resources of the router. *)
Inductive resource := posts | comments | groups | follow.

(** One API call: the resource, the action and the request. *)
Definition call : Type := resource * action * Request.t.

(** The database after one call. *)
Definition api_step (unique_constraint : bool) (c : call) (st : Store.t)
  : Store.t :=
  match c with
  | (posts, a, req) => (dispatch PostView a req st).2
  | (comments, a, req) => (dispatch CommentView a req st).2
  | (groups, a, req) => (dispatch GroupView a req st).2
  | (follow, a, req) =>
      (dispatch (FollowView unique_constraint) a req st).2
  end.

(** The database after a sequence of calls. *)
Definition api_run (unique_constraint : bool) (cs : list call)
    (st : Store.t) : Store.t :=
  foldl (λ s c, api_step unique_constraint c s) st cs.

(** Whether a call is a PUT or PATCH on the Follow edge [pk] made by the
    user with key [uid]. *)
Definition is_follow_update (pk uid : Z) (c : call) : bool :=
  match c with
  | (follow, (Update | PartialUpdate), req) =>
      bool_decide (Request.kwargs req !! "pk" = Some pk) &&
      bool_decide (fst <$> Request.user req = Some uid)
  | _ => false
  end.

(** What holds of the edge [pk], once stored as [f], as long as no update
    reaches it: the sequence is ahead of all keys and of [pk], and the
    edge is either gone or still [f]. *)
Definition edge_kept (pk : Z) (f : Follow.t) (st : Store.t) : Prop :=
  follow_seq_fresh st ∧ pk < Store.follow_seq st ∧
  (Store.follows st !! pk = None ∨ Store.follows st !! pk = Some f).

(* ===================================================================== *)
(** * A concrete database for the examples *)
(* ===================================================================== *)

(** Three users; alice wrote post 1 and comment 1 on it; bob follows
    alice. *)
Definition bob : instance User.t := (1, {| User.username := "bob" |}).
Definition alice : instance User.t := (2, {| User.username := "alice" |}).
Definition carol : instance User.t := (3, {| User.username := "carol" |}).

Definition demo_users : gmap Z User.t :=
  {[ bob.1 := bob.2; alice.1 := alice.2; carol.1 := carol.2 ]}.

Definition demo : Store.t := {|
  Store.users := demo_users;
  Store.groups := ∅;
  Store.posts :=
    {[ 1 := {| Post.text := "hello"; Post.author := 2; Post.group := None |} ]};
  Store.post_seq := 2;
  Store.comments :=
    {[ 1 := {| Comment.text := "first"; Comment.author := 2;
               Comment.post := 1 |} ]};
  Store.comment_seq := 2;
  Store.follows := {[ 1 := {| Follow.user := 1; Follow.following := 2 |} ]};
  Store.follow_seq := 2
|}.

(** A request of [user] with the given body and URL parameters. *)
Definition request (user : principal) (data : gmap string jval)
    (kwargs : gmap string Z) : Request.t :=
  {| Request.user := user; Request.data := data; Request.kwargs := kwargs;
     Request.search := [] |}.

(** Bob asks to follow alice and names carol in the writable [user]
    field. *)
Definition follow_alice_as_carol : Request.t :=
  request (Some bob) {[ "user" := JStr "carol"; "following" := JStr "alice" ]} ∅.

(** Bob asks to follow alice and leaves [user] to its default. *)
Definition follow_alice : Request.t :=
  request (Some bob) {[ "following" := JStr "alice" ]} ∅.

(** The edge from bob to alice, and the one from carol to alice. *)
Definition bob_alice : Follow.t :=
  {| Follow.user := bob.1; Follow.following := alice.1 |}.
Definition carol_alice : Follow.t :=
  {| Follow.user := carol.1; Follow.following := alice.1 |}.

(** Bob asks to follow carol and names alice in the [user] field. *)
Definition follow_carol_as_alice : Request.t :=
  request (Some bob) {[ "user" := JStr "alice"; "following" := JStr "carol" ]} ∅.

(** The database in which carol, not bob, follows alice. *)
Definition demo_carol : Store.t :=
  Store.with_follows demo {[ 1 := carol_alice ]} 2.

(** Bob posts a text and names alice as its author. *)
Definition post_as_alice : Request.t :=
  request (Some bob) {[ "text" := JStr "news"; "author" := JStr "alice" ]} ∅.

(** Alice rewrites her comment 1 under post 1 and asks to move it to
    post 7. *)
Definition move_comment : Request.t :=
  request (Some alice) {[ "text" := JStr "edited"; "post" := JInt 7 ]}
    {[ "post_id" := 1; "pk" := 1 ]}.

(** Bob comments under post 9, which does not exist: without a text, and
    with one; and an anonymous caller does the same with a text. *)
Definition empty_comment_on_9 : Request.t :=
  request (Some bob) ∅ {[ "post_id" := 9 ]}.
Definition comment_on_9 : Request.t :=
  request (Some bob) {[ "text" := JStr "hi" ]} {[ "post_id" := 9 ]}.
Definition anonymous_comment_on_9 : Request.t :=
  request None {[ "text" := JStr "hi" ]} {[ "post_id" := 9 ]}.

(** Bob addresses post 1 and comment 1 under it, both written by alice,
    with a new text. *)
Definition bob_edits_1 : Request.t :=
  request (Some bob) {[ "text" := JStr "mine" ]}
    {[ "post_id" := 1; "pk" := 1 ]}.

(** The database in which bob follows alice and carol, and bob's list of
    subscriptions searched for "ali". *)
Definition bob_carol : Follow.t :=
  {| Follow.user := bob.1; Follow.following := carol.1 |}.

Definition demo_two : Store.t :=
  Store.with_follows demo {[ 1 := bob_alice; 2 := bob_carol ]} 3.

Definition search_ali : Request.t :=
  {| Request.user := Some bob; Request.data := ∅; Request.kwargs := ∅;
     Request.search := ["ali"] |}.

(** Carol addresses edge 1, on which bob is the follower; bob addresses it
    himself and asks to follow carol instead of alice. *)
Definition carol_on_edge_1 : Request.t :=
  request (Some carol) {[ "following" := JStr "bob" ]} {[ "pk" := 1 ]}.

Definition bob_refollows_carol : Request.t :=
  request (Some bob) {[ "following" := JStr "carol" ]} {[ "pk" := 1 ]}.

(** Bob addresses edge 1 with a PUT that names carol as the follower. *)
Definition bob_hands_edge_to_carol : Request.t :=
  request (Some bob) {[ "user" := JStr "carol"; "following" := JStr "alice" ]}
    {[ "pk" := 1 ]}.

(** Bob follows carol, posts, and deletes the new edge 2, while carol
    tries to rewrite edge 1. *)
Definition busy_calls : list call :=
  [ (follow, Create, request (Some bob) {[ "following" := JStr "carol" ]} ∅);
    (posts, Create, post_as_alice);
    (follow, Update, carol_on_edge_1);
    (follow, Destroy, request (Some bob) ∅ {[ "pk" := 2 ]}) ].

(** The (follower, followed) pairs of a Follow table, one per row. *)
Definition pairs_of (m : gmap Z Follow.t) : list (Z * Z) :=
  (λ kv, (Follow.user kv.2, Follow.following kv.2)) <$> map_to_list m.

Definition follow_pairs (st : Store.t) : list (Z * Z) :=
  pairs_of (Store.follows st).

(** No row of the Follow table leads from a user to that same user. *)
Definition no_self_follow (st : Store.t) : Prop :=
  map_Forall (λ _ g, Follow.user g ≠ Follow.following g) (Store.follows st).

(** Whether a call is a PUT or PATCH on a Follow edge whose body has a
    [user] key. *)
Definition names_user_on_update (c : call) : bool :=
  match c with
  | (follow, (Update | PartialUpdate), req) =>
      bool_decide (is_Some (Request.data req !! "user"))
  | _ => false
  end.

(** Whether a call is a Follow creation whose body has a [user] key. *)
Definition names_user_on_create (c : call) : bool :=
  match c with
  | (follow, Create, req) => bool_decide (is_Some (Request.data req !! "user"))
  | _ => false
  end.

(** Bob asks to follow carol; he posts a subscription without naming
    anyone, and one to a user who does not exist. *)
Definition follow_carol : Request.t :=
  request (Some bob) {[ "following" := JStr "carol" ]} ∅.
Definition follow_nobody : Request.t :=
  request (Some bob) ∅ ∅.
Definition follow_dave : Request.t :=
  request (Some bob) {[ "following" := JStr "dave" ]} ∅.

(** Bob addresses his edge 1 and asks to follow himself. *)
Definition bob_refollows_bob : Request.t :=
  request (Some bob) {[ "following" := JStr "bob" ]} {[ "pk" := 1 ]}.

(** Bob addresses his edge 1 with an empty body. *)
Definition bob_on_edge_1 : Request.t :=
  request (Some bob) ∅ {[ "pk" := 1 ]}.

(** An anonymous caller with a text, addressing post 1 and comment 1. *)
Definition anonymous_on_1 : Request.t :=
  request None {[ "text" := JStr "hi" ]} {[ "post_id" := 1; "pk" := 1 ]}.

(** Bob comments under post 1 and names post 7 and alice in the body. *)
Definition comment_on_1 : Request.t :=
  request (Some bob)
    {[ "text" := JStr "nice"; "post" := JInt 7; "author" := JStr "alice" ]}
    {[ "post_id" := 1 ]}.

(** The database with a second post, written by bob, and a comment of
    carol on it. *)
Definition demo_posts : Store.t :=
  Store.with_comments
    (Store.with_posts demo
       {[ 1 := {| Post.text := "hello"; Post.author := 2; Post.group := None |};
          2 := {| Post.text := "world"; Post.author := 1; Post.group := None |} ]}
       3)
    {[ 1 := {| Comment.text := "first"; Comment.author := 2; Comment.post := 1 |};
       2 := {| Comment.text := "second"; Comment.author := 3;
               Comment.post := 2 |} ]}
    3.

(** Carol addresses her comment 2 under post 1, where it does not
    belong. *)
Definition carol_on_comment_2_of_1 : Request.t :=
  request (Some carol) {[ "text" := JStr "moved" ]}
    {[ "post_id" := 1; "pk" := 2 ]}.

(** Alice rewrites her post 1 and names bob as its author. *)
Definition alice_edits_post_1 : Request.t :=
  request (Some alice) {[ "text" := JStr "bye"; "author" := JStr "bob" ]}
    {[ "pk" := 1 ]}.

(* ===================================================================== *)
(** * Properties of the framework layer *)
(* ===================================================================== *)

Lemma NoDup_fmap_eq {A B} (f : A → B) (l : list A) (x y : A) :
  NoDup (f <$> l) → x ∈ l → y ∈ l → f x = f y → x = y.
Proof.
  induction l as [|a l IH]; intros Hnd Hx Hy Hf; [by inversion Hx|].
  rewrite fmap_cons in Hnd. apply NoDup_cons in Hnd as [Ha Hnd].
  apply elem_of_cons in Hx as [->|Hx]; apply elem_of_cons in Hy as [->|Hy];
    auto.
  - exfalso. apply Ha. rewrite Hf. by apply list_elem_of_fmap_2.
  - exfalso. apply Ha. rewrite <- Hf. by apply list_elem_of_fmap_2.
Qed.

Lemma usernames_key (st : Store.t) (k1 k2 : Z) (u1 u2 : User.t) :
  NoDup (usernames st) →
  Store.users st !! k1 = Some u1 → Store.users st !! k2 = Some u2 →
  User.username u1 = User.username u2 → k1 = k2.
Proof.
  intros Hnd H1 H2 Hn.
  apply elem_of_map_to_list in H1, H2.
  pose proof (NoDup_fmap_eq (λ kv : Z * User.t, User.username kv.2)
                _ _ _ Hnd H1 H2 Hn) as E.
  by inversion E.
Qed.

(** With unique usernames [queryset.get] finds at most one row. *)
Lemma get_user_by_username_cases (st : Store.t) (slug : string) :
  NoDup (usernames st) →
  get_user_by_username st slug = Invalid "does_not_exist" ∨
  ∃ u, get_user_by_username st slug = Value u ∧
       Store.users st !! u.1 = Some u.2 ∧ User.username u.2 = slug.
Proof.
  intros Hnd. unfold get_user_by_username.
  set (m := filter _ _).
  assert (Hin : ∀ k u, (k, u) ∈ map_to_list m →
            Store.users st !! k = Some u ∧ User.username u = slug).
  { intros k u Hk. apply elem_of_map_to_list in Hk.
    by apply map_lookup_filter_Some in Hk as [? ?]. }
  pose proof (NoDup_map_to_list m) as Hm.
  destruct (map_to_list m) as [|[k1 u1] [|[k2 u2] l]]; [by left| |].
  - right. exists (k1, u1). split; [done|]. apply Hin. by left.
  - exfalso.
    destruct (Hin k1 u1) as [H1 E1]; [by left|].
    destruct (Hin k2 u2) as [H2 E2]; [by right; left|].
    assert (k1 = k2) by (eapply usernames_key; eauto; congruence).
    subst k2. assert (u1 = u2) by congruence. subst u2.
    apply NoDup_cons in Hm as [Hm _]. apply Hm. by left.
Qed.

Lemma get_user_by_username_found (st : Store.t) (k : Z) (u : User.t) :
  NoDup (usernames st) →
  Store.users st !! k = Some u →
  get_user_by_username st (User.username u) = Value (k, u).
Proof.
  intros Hnd Hk.
  destruct (get_user_by_username_cases st (User.username u) Hnd)
    as [E|[[k' u'] (E & Hk' & Hn)]]; simpl in *.
  - exfalso. unfold get_user_by_username in E.
    assert (Hin : (k, u) ∈ map_to_list
              (filter (λ kv : Z * User.t, User.username kv.2 = User.username u)
                 (Store.users st))).
    { apply elem_of_map_to_list, map_lookup_filter_Some. done. }
    destruct (map_to_list _) as [|? [|? ?]]; [by inversion Hin|done|done].
  - assert (k' = k) by (eapply usernames_key; eauto). subst k'.
    rewrite E. repeat f_equal. congruence.
Qed.

(* ===================================================================== *)
(** * The generic actions *)
(* ===================================================================== *)

Section GenericFacts.
Context {Row Data : Type} (V : ViewSet Row Data).

(** An object handed out by [get_object] is a row of the filtered queryset
    under the key of the URL, and it passed the object permissions. *)
Lemma get_object_Ok (a : action) (req : Request.t) (st : Store.t)
    (obj : instance Row) :
  get_object V a req st = Ok obj →
  ∃ qs, get_queryset V req st = Ok qs ∧
        Request.kwargs req !! "pk" = Some obj.1 ∧
        filter_queryset V req st qs !! obj.1 = Some obj.2 ∧
        check_object_permissions V a req obj = Ok ().
Proof.
  unfold get_object, get_object_or_404.
  destruct (get_queryset V req st) as [qs|e]; simpl; [|done].
  destruct (Request.kwargs req !! "pk") as [pk|]; [|done].
  destruct (filter_queryset V req st qs !! pk) as [row|] eqn:E; simpl; [|done].
  destruct (check_object_permissions V a req (pk, row)) as [[]|e] eqn:P;
    simpl; [|done].
  intros [= <-]. exists qs. by simpl.
Qed.

(** A key that the filtered queryset does not hold is not found. *)
Lemma get_object_404 (a : action) (req : Request.t) (st : Store.t)
    (qs : gmap Z Row) (pk : Z) :
  get_queryset V req st = Ok qs →
  Request.kwargs req !! "pk" = Some pk →
  filter_queryset V req st qs !! pk = None →
  get_object V a req st = Raise Http404.
Proof.
  intros Hq Hk Hn. unfold get_object, get_object_or_404.
  rewrite Hq. simpl. rewrite Hk, Hn. done.
Qed.

(** A row the object permissions refuse is denied. *)
Lemma get_object_denied (a : action) (req : Request.t) (st : Store.t)
    (qs : gmap Z Row) (pk : Z) (row : Row) :
  get_queryset V req st = Ok qs →
  Request.kwargs req !! "pk" = Some pk →
  filter_queryset V req st qs !! pk = Some row →
  forallb (λ p, has_object_permission p a req (pk, row))
          (permission_classes V) = false →
  get_object V a req st = Raise (permission_denied req).
Proof.
  intros Hq Hk Hr Hp. unfold get_object, get_object_or_404.
  rewrite Hq. simpl. rewrite Hk, Hr. simpl.
  unfold check_object_permissions. by rewrite Hp.
Qed.

(** When the object cannot be fetched, the detail actions answer with the
    exception and leave the database alone. *)
Lemma dispatch_get_object_Raise (a : action) (req : Request.t) (st : Store.t)
    (e : api_error) :
  SAFE_METHODS a = false ∨ a = Retrieve → a ≠ Create →
  check_permissions V a req = Ok () →
  http_actions V a = true →
  get_object V a req st = Raise e →
  dispatch V a req st = (Error e, st).
Proof.
  intros Ha Hc Hp Hr Hg. unfold dispatch, update_action.
  rewrite Hp, Hr. simpl.
  destruct a; try done; try (by rewrite Hg); by destruct Ha.
Qed.

(** The ways a call can end, as far as the database is concerned: nothing
    changed, [perform_create] ran, [save] ran on the object of the URL, or
    that object was deleted. *)
Lemma dispatch_store (a : action) (req : Request.t) (st : Store.t) :
  (dispatch V a req st).2 = st ∨
  (a = Create ∧ ∃ d obj,
     run_validation V st req None false = Ok d ∧
     perform_create V req st d = Ok (obj, (dispatch V a req st).2)) ∨
  ((a = Update ∨ a = PartialUpdate) ∧ ∃ obj partial d obj',
     get_object V a req st = Ok obj ∧
     run_validation V st req (Some obj) partial = Ok d ∧
     save V st (Some obj) d = Ok (obj', (dispatch V a req st).2)) ∨
  (a = Destroy ∧ ∃ obj,
     get_object V a req st = Ok obj ∧
     (dispatch V a req st).2 = delete V st obj).
Proof.
  unfold dispatch, update_action.
  destruct (check_permissions V a req) as [[]|e]; [|by left].
  destruct (http_actions V a); simpl; [|by left].
  destruct a.
  - left. by destruct (get_queryset V req st).
  - destruct (run_validation V st req None false) as [d|e] eqn:Hv; simpl;
      [|by left].
    destruct (perform_create V req st d) as [[obj st']|e] eqn:Hc; [|by left].
    right; left. split; [done|]. by exists d, obj.
  - left. by destruct (get_object V Retrieve req st).
  - destruct (get_object V Update req st) as [obj|e] eqn:Hg; simpl; [|by left].
    destruct (run_validation V st req (Some obj) false) as [d|e] eqn:Hv;
      simpl; [|by left].
    destruct (save V st (Some obj) d) as [[obj' st']|e] eqn:Hs; [|by left].
    right; right; left. split; [by left|]. by exists obj, false, d, obj'.
  - destruct (get_object V PartialUpdate req st) as [obj|e] eqn:Hg; simpl;
      [|by left].
    destruct (run_validation V st req (Some obj) true) as [d|e] eqn:Hv;
      simpl; [|by left].
    destruct (save V st (Some obj) d) as [[obj' st']|e] eqn:Hs; [|by left].
    right; right; left. split; [by right|]. by exists obj, true, d, obj'.
  - destruct (get_object V Destroy req st) as [obj|e] eqn:Hg; [|by left].
    right; right; right. split; [done|]. by exists obj.
Qed.

(** A call that answers with an error changed nothing. *)
Lemma dispatch_Error_unchanged (a : action) (req : Request.t)
    (st st' : Store.t) (e : api_error) :
  dispatch V a req st = (Error e, st') → st' = st.
Proof.
  unfold dispatch, update_action.
  destruct (check_permissions V a req) as [[]|?]; [|by intros [= _ <-]].
  destruct (http_actions V a); simpl; [|by intros [= _ <-]].
  destruct a;
    repeat match goal with
    | |- context [match ?x with _ => _ end] => destruct x; simpl
    end; by intros [= <-] || by intros [=] || by intros [= _ <-].
Qed.
End GenericFacts.

(* ===================================================================== *)
(** * FollowSerializer: field validation *)
(* ===================================================================== *)

(** With unique usernames the [user] field never ends in an exception. *)
Lemma user_field_no_exception (st : Store.t) (req : Request.t) (partial : bool) :
  NoDup (usernames st) →
  field_exception (FollowSerializer.user_field st req partial) = None.
Proof.
  intros Hnd.
  assert (H : ∀ v, field_exception
            match get_user_by_username st (str v) with
            | Value w => Value (Some w)
            | SkipField => SkipField
            | Invalid m => Invalid m
            | Unhandled e => Unhandled e
            end = None).
  { intros v. by destruct (get_user_by_username_cases st (str v) Hnd)
      as [E|(w & E & _)]; rewrite E. }
  unfold FollowSerializer.user_field, RelatedField_run_validation,
    Field_run_validation, SlugRelatedField_to_internal_value.
  destruct (Request.data req !! "user") as [[|s|z]|]; simpl.
  - done.
  - destruct s as [|c s]; [done|]. apply (H (JStr (String c s))).
  - apply (H (JInt z)).
  - by destruct partial.
Qed.

(** Naming oneself in [following] makes the field invalid: the slug is
    resolved to the row of the caller, which [validate_following] rejects
    (the empty string is refused before as a null). *)
Lemma following_field_self (st : Store.t) (req : Request.t) (partial : bool)
    (u : instance User.t) (v : jval) :
  NoDup (usernames st) →
  Store.users st !! u.1 = Some u.2 →
  Request.user req = Some u →
  Request.data req !! "following" = Some v →
  v ≠ JNull →
  str v = User.username u.2 →
  FollowSerializer.following_field st req partial =
    Invalid (match v with
             | JStr "" => "null"
             | _ => FollowSerializer.self_follow_message
             end).
Proof.
  intros Hnd Hu Hreq Hv Hnull Hstr.
  pose proof (get_user_by_username_found st u.1 u.2 Hnd Hu) as Hget.
  rewrite <- Hstr in Hget.
  unfold FollowSerializer.following_field, RelatedField_run_validation,
    Field_run_validation, SlugRelatedField_to_internal_value.
  rewrite Hv.
  assert (Hself : FollowSerializer.validate_following req (u.1, u.2) =
                  Invalid FollowSerializer.self_follow_message).
  { unfold FollowSerializer.validate_following,
      FollowSerializer.is_request_user.
    rewrite Hreq. simpl. by rewrite bool_decide_eq_true_2. }
  destruct u as [k w]. simpl in Hu, Hstr, Hself |- *.
  destruct v as [|s|z]; [done| |].
  - destruct s as [|c s]; simpl in Hget, Hstr |- *.
    + done.
    + by rewrite Hget, Hself.
  - simpl in Hget, Hstr |- *. by rewrite Hget, Hself.
Qed.

(* ===================================================================== *)
(** * Follow creation *)
(* ===================================================================== *)

(** C1.  A Follow creation whose [following] names the caller is refused
    with a validation error and leaves the database as it was: for a
    caller [u] stored under a unique username, a body whose [following]
    value reads as the username of [u] ends in [ValidationError], carrying
    the self-follow message on the [following] field (an empty string is
    refused as null), and the state is unchanged. *)
Theorem follow_create_self_follow_rejected
    (unique_constraint : bool) (req : Request.t) (st : Store.t)
    (u : instance User.t) (v : jval) :
  NoDup (usernames st) →
  Store.users st !! u.1 = Some u.2 →
  Request.user req = Some u →
  Request.data req !! "following" = Some v →
  v ≠ JNull →
  str v = User.username u.2 →
  ∃ detail,
    dispatch (FollowView unique_constraint) Create req st
      = (Error (ValidationError detail), st) ∧
    (v ≠ JStr "" →
     ("following", FollowSerializer.self_follow_message) ∈ detail).
Proof.
  intros Hnd Hu Hreq Hv Hnull Hstr.
  pose proof (following_field_self st req false u v Hnd Hu Hreq Hv Hnull Hstr)
    as Hf.
  pose proof (user_field_no_exception st req false Hnd) as Hx.
  unfold dispatch, check_permissions. simpl.
  unfold is_authenticated. rewrite Hreq. simpl.
  unfold FollowSerializer.run_validation, FollowSerializer.to_internal_value,
    to_internal_value_result.
  rewrite Hf. simpl. rewrite Hx. simpl.
  set (msg := match v with JStr "" => _ | _ => _ end).
  set (errs := (field_errors "user" _ ++ [("following", msg)])%list).
  assert (Hin : ("following", msg) ∈ errs).
  { apply elem_of_app. right. by left. }
  clearbody errs. destruct errs as [|e errs']; [by inversion Hin|].
  simpl. eexists. split; [done|].
  intros Hne. subst msg. by destruct v as [|[|c s]|z].
Qed.

Lemma follow_create_self_follow_rejected_witness :
  ∃ detail,
    dispatch (FollowView true) Create
      (request (Some bob) {[ "following" := JStr "bob" ]} ∅) demo
      = (Error (ValidationError detail), demo) ∧
    (JStr "bob" ≠ JStr "" →
     ("following", FollowSerializer.self_follow_message) ∈ detail).
Proof.
  apply (follow_create_self_follow_rejected true _ demo bob (JStr "bob")).
  - apply (bool_decide_unpack _). by vm_compute.
  - reflexivity.
  - reflexivity.
  - reflexivity.
  - discriminate.
  - reflexivity.
Defined.

Lemma qs_exists_true {Row} (P : Z → Row → bool) (qs : gmap Z Row) :
  qs_exists P qs = true ↔ ∃ k r, qs !! k = Some r ∧ P k r = true.
Proof.
  unfold qs_exists. rewrite existsb_exists. split.
  - intros [[k r] [Hin HP]]. exists k, r. split; [|done].
    apply elem_of_map_to_list. by apply list_elem_of_In.
  - intros (k & r & Hk & HP). exists (k, r). split; [|done].
    apply list_elem_of_In. by apply elem_of_map_to_list.
Qed.

(** A creation that succeeds stores the edge under the caller, whatever
    the body says about [user]. *)
Lemma follow_create_user_is_caller (unique_constraint : bool)
    (req : Request.t) (st st' : Store.t) (pk : Z) (row : Follow.t) :
  dispatch (FollowView unique_constraint) Create req st
    = (HTTP_201 pk row, st') →
  ∃ u, Request.user req = Some u ∧ Follow.user row = u.1 ∧
       Store.follows st' !! pk = Some row.
Proof.
  unfold dispatch, check_permissions. simpl. unfold is_authenticated.
  destruct (Request.user req) as [u|] eqn:Hu; simpl; [|done].
  destruct (FollowSerializer.run_validation st req None false) as [d|e];
    simpl; [|done].
  unfold FollowViewSet.perform_create, FollowSerializer.save,
    FollowSerializer.create. simpl. rewrite Hu.
  destruct (FollowSerializer.following d) as [w|]; [|done].
  destruct (unique_constraint && _); [done|]. simpl.
  intros [= <- <- <-]. exists u. simpl. by rewrite lookup_insert_eq.
Qed.

(** With [user] left to its default, a creation that repeats an edge of the
    caller is refused with a validation error. *)
Lemma follow_create_duplicate_rejected (unique_constraint : bool)
    (req : Request.t) (st : Store.t) (u w : instance User.t)
    (name : string) (pk : Z) :
  NoDup (usernames st) →
  Request.user req = Some u →
  Request.data req !! "user" = None →
  Request.data req !! "following" = Some (JStr name) →
  Store.users st !! w.1 = Some w.2 → User.username w.2 = name →
  Store.follows st !! pk
    = Some {| Follow.user := u.1; Follow.following := w.1 |} →
  ∃ detail,
    dispatch (FollowView unique_constraint) Create req st
      = (Error (ValidationError detail), st).
Proof.
  intros Hnd Hu Hnone Hf Hw Hname Hedge.
  unfold dispatch, check_permissions. simpl. unfold is_authenticated.
  rewrite Hu. simpl.
  unfold FollowSerializer.run_validation, FollowSerializer.to_internal_value,
    FollowSerializer.user_field, FollowSerializer.following_field,
    RelatedField_run_validation, Field_run_validation,
    SlugRelatedField_to_internal_value, FollowSerializer.CurrentUserDefault.
  rewrite Hnone, Hf, Hu.
  destruct name as [|c name]; [simpl; eauto|].
  pose proof (get_user_by_username_found st w.1 w.2 Hnd Hw) as Hget.
  rewrite Hname in Hget. simpl. rewrite Hget.
  unfold FollowSerializer.validate_following.
  destruct (FollowSerializer.is_request_user req (w.1, w.2)); simpl; [eauto|].
  unfold FollowSerializer.UniqueTogetherValidator. simpl.
  match goal with
  | |- context [qs_exists ?P ?m] => assert (E : qs_exists P m = true)
  end.
  { apply qs_exists_true. eexists pk, _. split; [exact Hedge|].
    simpl. by rewrite !bool_decide_eq_true_2. }
  rewrite E. simpl. eauto.
Qed.

(** C2.  The code at the failing input: bob already follows alice and
    posts a second subscription to alice with carol in the writable [user]
    field.  The uniqueness validator searches for (carol, alice), finds
    nothing and lets the request through; [perform_create] then stores
    (bob, alice).  Without a database constraint the pair is stored twice;
    with one the insert fails with an [IntegrityError].  In neither case is
    the answer a validation error. *)
Theorem follow_create_duplicate_passes_validation :
  Store.follows demo !! 1 = Some bob_alice ∧
  FollowSerializer.run_validation demo follow_alice_as_carol None false
    = Ok {| FollowSerializer.user := Some (Some carol);
            FollowSerializer.following := Some alice |} ∧
  (dispatch (FollowView false) Create follow_alice_as_carol demo).1
    = HTTP_201 2 bob_alice ∧
  Store.follows (dispatch (FollowView false) Create follow_alice_as_carol demo).2
    = {[ 1 := bob_alice; 2 := bob_alice ]} ∧
  dispatch (FollowView true) Create follow_alice_as_carol demo
    = (Error (ServerError "IntegrityError"), demo).
Proof. repeat split; by vm_compute. Qed.

(** C4.  The code at the failing inputs.  Validation runs on the follower
    the client names, not on the caller the edge is stored under.  In a
    creation that succeeds, bob names alice in [user]: the validated data
    holds alice as the follower while the stored edge has bob.  And where
    carol follows alice and bob does not, bob's subscription to alice with
    carol in [user] is refused as a duplicate of (carol, alice), although
    the edge that would be stored, (bob, alice), does not exist; the same
    request without the [user] key is accepted and stores (bob, alice). *)
Theorem follow_create_validates_client_user :
  FollowSerializer.run_validation demo follow_carol_as_alice None false
    = Ok {| FollowSerializer.user := Some (Some alice);
            FollowSerializer.following := Some carol |} ∧
  (∀ unique_constraint,
     (dispatch (FollowView unique_constraint) Create follow_carol_as_alice
        demo).1
     = HTTP_201 2 bob_carol) ∧
  (∀ pk f, Store.follows demo_carol !! pk = Some f → f ≠ bob_alice) ∧
  (∀ unique_constraint,
     dispatch (FollowView unique_constraint) Create follow_alice_as_carol
       demo_carol
     = (Error (ValidationError
                 [("non_field_errors", FollowSerializer.unique_message)]),
        demo_carol)) ∧
  (∀ unique_constraint,
     (dispatch (FollowView unique_constraint) Create follow_alice
        demo_carol).1
     = HTTP_201 2 bob_alice).
Proof.
  split; [by vm_compute|]. split; [by intros []; vm_compute|].
  split; [|split].
  - intros pk f. unfold demo_carol. simpl.
    intros [<- <-]%lookup_singleton_Some. done.
  - by intros []; vm_compute.
  - by intros []; vm_compute.
Qed.

(* ===================================================================== *)
(** * Posts *)
(* ===================================================================== *)

(** [PostSerializer] does not read the [author] key of the body. *)
Lemma post_validation_ignores_author (st : Store.t) (req : Request.t)
    (partial : bool) (v : jval) :
  PostSerializer.to_internal_value st
    (Request.with_data req (<["author" := v]> (Request.data req))) partial
  = PostSerializer.to_internal_value st req partial.
Proof.
  unfold PostSerializer.to_internal_value. simpl.
  by rewrite !lookup_insert_ne.
Qed.

(** C3.  A successful Post creation stores the post under the caller:
    when the create action answers 201 with a row, the caller is
    authenticated, the row's author is the caller's key, the row is in the
    post table afterwards, and the same request with any [author] value in
    its body has the same outcome. *)
Theorem post_create_author_is_caller
    (req : Request.t) (st st' : Store.t) (pk : Z) (row : Post.t) :
  dispatch PostView Create req st = (HTTP_201 pk row, st') →
  (∃ u, Request.user req = Some u ∧ Post.author row = u.1) ∧
  Store.posts st' !! pk = Some row ∧
  ∀ v, dispatch PostView Create
         (Request.with_data req (<["author" := v]> (Request.data req))) st
       = (HTTP_201 pk row, st').
Proof.
  intros H.
  assert (Hv : ∀ v, dispatch PostView Create
             (Request.with_data req (<["author" := v]> (Request.data req))) st
           = dispatch PostView Create req st).
  { intros v. unfold dispatch, check_permissions. simpl.
    unfold PostSerializer.run_validation.
    by rewrite post_validation_ignores_author. }
  split; [|split]; [| |by intros v; rewrite Hv].
  - revert H. unfold dispatch, check_permissions. simpl.
    unfold is_authenticated, PostViewSet.perform_create.
    destruct (Request.user req) as [u|] eqn:Hu; simpl; [|done].
    destruct (PostSerializer.run_validation st req None false) as [d|e];
      simpl; [|done].
    intros [= <- <- <-]. by exists u.
  - revert H. unfold dispatch, check_permissions. simpl.
    unfold is_authenticated, PostViewSet.perform_create.
    destruct (Request.user req) as [u|]; simpl; [|done].
    destruct (PostSerializer.run_validation st req None false) as [d|e];
      simpl; [|done].
    intros [= <- <- <-]. simpl. by rewrite lookup_insert_eq.
Qed.

Lemma post_create_author_is_caller_witness :
  (∃ u, Request.user post_as_alice = Some u ∧ bob.1 = u.1) ∧
  Store.posts (dispatch PostView Create post_as_alice demo).2 !! 2
    = Some {| Post.text := "news"; Post.author := bob.1; Post.group := None |} ∧
  ∀ v, dispatch PostView Create
         (Request.with_data post_as_alice
            (<["author" := v]> (Request.data post_as_alice))) demo
       = (HTTP_201 2
            {| Post.text := "news"; Post.author := bob.1; Post.group := None |},
          (dispatch PostView Create post_as_alice demo).2).
Proof.
  apply (post_create_author_is_caller post_as_alice demo
           (dispatch PostView Create post_as_alice demo).2 2
           {| Post.text := "news"; Post.author := bob.1; Post.group := None |}).
  by vm_compute.
Defined.

(* ===================================================================== *)
(** * Comments *)
(* ===================================================================== *)

(** [CommentSerializer] does not read the [post] key of the body. *)
Lemma comment_validation_ignores_post (st : Store.t) (req : Request.t)
    (partial : bool) (v : jval) :
  CommentSerializer.to_internal_value st
    (Request.with_data req (<["post" := v]> (Request.data req))) partial
  = CommentSerializer.to_internal_value st req partial.
Proof.
  unfold CommentSerializer.to_internal_value. simpl.
  by rewrite !lookup_insert_ne.
Qed.

(** Validation fills neither of the read-only attributes. *)
Lemma comment_validation_read_only (st : Store.t) (req : Request.t)
    (partial : bool) (d : CommentSerializer.validated_data) :
  CommentSerializer.to_internal_value st req partial = Ok d →
  CommentSerializer.author d = None ∧ CommentSerializer.post d = None.
Proof.
  unfold CommentSerializer.to_internal_value, to_internal_value_result.
  destruct (first_exception _); [done|].
  destruct (field_errors _ _); [|done].
  by intros [= <-].
Qed.

(** The queryset of [CommentViewSet] holds rows of the comment table. *)
Lemma comment_queryset_lookup (req : Request.t) (st : Store.t)
    (qs : gmap Z Comment.t) (pk : Z) (c : Comment.t) :
  CommentViewSet.get_queryset req st = Ok qs →
  qs !! pk = Some c →
  Store.comments st !! pk = Some c ∧
  Request.kwargs req !! "post_id" = Some (Comment.post c).
Proof.
  unfold CommentViewSet.get_queryset, get_object_or_404, post_comments.
  destruct (Request.kwargs req !! "post_id") as [id|]; [|done].
  destruct (Store.posts st !! id); [|done]. simpl.
  intros [= <-] [Hc Hp]%map_lookup_filter_Some. simpl in Hp. by subst id.
Qed.

(** C5.  A Comment update, full or partial, leaves every comment on its
    post: whatever the request, a comment stored before the call is stored
    after it with the same post (and the same author), and the same
    request with any [post] value in its body has the same outcome. *)
Theorem comment_update_keeps_post
    (a : action) (req : Request.t) (st : Store.t) (pk : Z) (c : Comment.t) :
  a = Update ∨ a = PartialUpdate →
  Store.comments st !! pk = Some c →
  (∃ c', Store.comments (dispatch CommentView a req st).2 !! pk = Some c' ∧
         Comment.post c' = Comment.post c ∧
         Comment.author c' = Comment.author c) ∧
  ∀ v, dispatch CommentView a
         (Request.with_data req (<["post" := v]> (Request.data req))) st
       = dispatch CommentView a req st.
Proof.
  intros Ha Hc. split.
  - destruct (dispatch_store CommentView a req st)
      as [E|[[-> _]|[[_ (obj & partial & d & obj' & Hg & Hv & Hs)]|[-> _]]]].
    + rewrite E. by exists c.
    + by destruct Ha.
    + apply get_object_Ok in Hg as (qs & Hq & _ & Hl & _).
      destruct (comment_queryset_lookup req st qs _ _ Hq Hl) as [Hobj _].
      apply (comment_validation_read_only st req partial) in Hv as [Hau Hpo].
      simpl in Hs. unfold CommentSerializer.update in Hs.
      rewrite Hau, Hpo in Hs. injection Hs as _ <-. simpl.
      destruct (decide (obj.1 = pk)) as [<-|Hne].
      * rewrite lookup_insert_eq. eexists. split; [done|].
        simpl. by replace c with obj.2 by congruence.
      * rewrite lookup_insert_ne by done. by exists c.
    + by destruct Ha as [[=]|[=]].
  - intros v. set (req' := Request.with_data req _).
    assert (Hg : ∀ b, get_object CommentView b req' st
                      = get_object CommentView b req st) by done.
    assert (Hp : ∀ b, check_permissions CommentView b req'
                      = check_permissions CommentView b req) by done.
    destruct Ha as [-> | ->]; unfold dispatch, update_action;
      rewrite Hg, Hp; destruct (check_permissions _ _ _); try done;
      destruct (get_object _ _ _ _); try done; simpl;
      unfold CommentSerializer.run_validation; subst req';
      by rewrite comment_validation_ignores_post.
Qed.

Lemma comment_update_keeps_post_witness :
  (∃ c', Store.comments (dispatch CommentView Update move_comment demo).2 !! 1
           = Some c' ∧
         Comment.post c' = 1 ∧ Comment.author c' = alice.1) ∧
  ∀ v, dispatch CommentView Update
         (Request.with_data move_comment
            (<["post" := v]> (Request.data move_comment))) demo
       = dispatch CommentView Update move_comment demo.
Proof.
  apply (comment_update_keeps_post Update move_comment demo 1
           {| Comment.text := "first"; Comment.author := alice.1;
              Comment.post := 1 |}).
  - by left.
  - reflexivity.
Defined.

(** The update of the witness goes through: the text is replaced. *)
Example move_comment_updates_text :
  dispatch CommentView Update move_comment demo
  = (HTTP_200 1 {| Comment.text := "edited"; Comment.author := alice.1;
                   Comment.post := 1 |},
     Store.with_comments demo
       {[ 1 := {| Comment.text := "edited"; Comment.author := alice.1;
                  Comment.post := 1 |} ]} 2).
Proof. by vm_compute. Qed.

(** [CommentSerializer] fails with validation errors only. *)
Lemma comment_validation_Raise (st : Store.t) (req : Request.t)
    (inst : option (instance Comment.t)) (partial : bool) (e : api_error) :
  CommentSerializer.run_validation st req inst partial = Raise e →
  ∃ detail, e = ValidationError detail.
Proof.
  unfold CommentSerializer.run_validation,
    CommentSerializer.to_internal_value, to_internal_value_result.
  assert (Hx : field_exception
            (CharField_run_validation partial (Request.data req !! "text"))
          = None).
  { unfold CharField_run_validation, Field_run_validation.
    destruct (Request.data req !! "text") as [[|s|z]|]; simpl; try done.
    - by case_bool_decide.
    - by destruct partial. }
  simpl. rewrite Hx.
  destruct (field_errors _ _); [done|]. intros [= <-]. eauto.
Qed.

(** C6, the input on which it fails: post 9 does not exist, and a create
    under it is answered with a validation error when the body has no
    text, and as not authenticated when the caller is anonymous; only the
    list, and the create of an authenticated caller with a valid body, are
    answered as not found. *)
Lemma comment_create_missing_post_not_404 :
  Store.posts demo !! 9 = None ∧
  dispatch CommentView Create empty_comment_on_9 demo
    = (Error (ValidationError [("text", "required")]), demo) ∧
  dispatch CommentView Create anonymous_comment_on_9 demo
    = (Error NotAuthenticated, demo).
Proof. repeat split; by vm_compute. Qed.

(** C6, amended.  Under a post id that matches no post, a Comment list is
    answered as not found; a Comment create is answered as not
    authenticated for an anonymous caller, with the validation error of
    its body when the body is invalid, and as not found otherwise; and in
    every case the database is unchanged, so no comment is created. *)
Theorem comment_missing_post
    (a : action) (req : Request.t) (st : Store.t) (post_id : Z) :
  a = List ∨ a = Create →
  Request.kwargs req !! "post_id" = Some post_id →
  Store.posts st !! post_id = None →
  (dispatch CommentView a req st).2 = st ∧
  (a = List → (dispatch CommentView a req st).1 = Error Http404) ∧
  (a = Create → Request.user req = None →
     (dispatch CommentView a req st).1 = Error NotAuthenticated) ∧
  (a = Create → is_Some (Request.user req) →
     ∀ e, CommentSerializer.run_validation st req None false = Raise e →
          (∃ detail, e = ValidationError detail) ∧
          (dispatch CommentView a req st).1 = Error e) ∧
  (a = Create → is_Some (Request.user req) →
     ∀ d, CommentSerializer.run_validation st req None false = Ok d →
          (dispatch CommentView a req st).1 = Error Http404).
Proof.
  intros Ha Hk Hp.
  assert (Hq : CommentViewSet.get_queryset req st = Raise Http404).
  { unfold CommentViewSet.get_queryset, get_object_or_404.
    by rewrite Hk, Hp. }
  assert (Hc : ∀ d, CommentViewSet.perform_create req st d = Raise Http404).
  { intros d. unfold CommentViewSet.perform_create, get_object_or_404.
    by rewrite Hk, Hp. }
  destruct Ha as [-> | ->].
  - unfold dispatch. simpl. rewrite Hq.
    repeat split; try done; by intros [=].
  - unfold dispatch, check_permissions, permission_denied. simpl.
    unfold is_authenticated.
    destruct (Request.user req) as [u|]; simpl.
    + destruct (CommentSerializer.run_validation st req None false)
        as [d|e] eqn:Hv; simpl.
      * rewrite Hc. repeat split; try done.
      * repeat split; try done; simplify_eq; [|done].
        by eapply comment_validation_Raise.
    + repeat split; try done; by intros _ [? [=]].
Qed.

Lemma comment_missing_post_witness :
  (dispatch CommentView Create comment_on_9 demo).2 = demo ∧
  (Create = List →
     (dispatch CommentView Create comment_on_9 demo).1 = Error Http404) ∧
  (Create = Create → Request.user comment_on_9 = None →
     (dispatch CommentView Create comment_on_9 demo).1
       = Error NotAuthenticated) ∧
  (Create = Create → is_Some (Request.user comment_on_9) →
     ∀ e, CommentSerializer.run_validation demo comment_on_9 None false
            = Raise e →
          (∃ detail, e = ValidationError detail) ∧
          (dispatch CommentView Create comment_on_9 demo).1 = Error e) ∧
  (Create = Create → is_Some (Request.user comment_on_9) →
     ∀ d, CommentSerializer.run_validation demo comment_on_9 None false
            = Ok d →
          (dispatch CommentView Create comment_on_9 demo).1 = Error Http404).
Proof.
  apply (comment_missing_post Create comment_on_9 demo 9).
  - by right.
  - reflexivity.
  - reflexivity.
Defined.

(** The create of the witness is the one answered as not found. *)
Example comment_on_9_not_found :
  dispatch CommentView Create comment_on_9 demo = (Error Http404, demo) ∧
  dispatch CommentView List anonymous_comment_on_9 demo
    = (Error Http404, demo).
Proof. split; by vm_compute. Qed.

(* ===================================================================== *)
(** * Writes by a caller who is not the author *)
(* ===================================================================== *)

(** C8.  An update or delete of a Post or Comment by a caller who is not
    its author is refused and changes nothing.  For a post stored under
    the key of the URL, and for a comment stored under that key and
    addressed through its post, a caller other than the author gets the
    answer of [permission_denied] -- permission denied when authenticated,
    not authenticated when anonymous -- and the database is the one before
    the call. *)
Theorem non_author_write_forbidden
    (a : action) (req : Request.t) (st : Store.t) (pk : Z) :
  a = Update ∨ a = PartialUpdate ∨ a = Destroy →
  Request.kwargs req !! "pk" = Some pk →
  (∀ p, Store.posts st !! pk = Some p →
        (∀ u, Request.user req = Some u → u.1 ≠ Post.author p) →
        dispatch PostView a req st
        = (Error (if is_authenticated req then PermissionDenied
                  else NotAuthenticated), st)) ∧
  (∀ c, Store.comments st !! pk = Some c →
        Request.kwargs req !! "post_id" = Some (Comment.post c) →
        is_Some (Store.posts st !! Comment.post c) →
        (∀ u, Request.user req = Some u → u.1 ≠ Comment.author c) →
        dispatch CommentView a req st
        = (Error (if is_authenticated req then PermissionDenied
                  else NotAuthenticated), st)).
Proof.
  intros Ha Hk.
  assert (Hunsafe : SAFE_METHODS a = false) by (by destruct Ha as [->|[->| ->]]).
  assert (Hnc : a ≠ Create) by (by destruct Ha as [->|[->| ->]]).
  split.
  - intros p Hp Hne.
    destruct (Request.user req) as [u|] eqn:Hu.
    + apply (dispatch_get_object_Raise PostView); auto.
      * unfold check_permissions. simpl. unfold is_authenticated.
        by rewrite Hu, Hunsafe.
      * replace (if is_authenticated req then _ else _)
          with (permission_denied req) by done.
        apply (get_object_denied PostView a req st (Store.posts st) pk p);
          auto.
        simpl. rewrite Hu, Hunsafe. simpl.
        rewrite bool_decide_eq_false_2; [done|].
        intros E. by apply (Hne u).
    + unfold dispatch, check_permissions, permission_denied. simpl.
      unfold is_authenticated. by rewrite Hu, Hunsafe.
  - intros c Hc Hpost [p Hp] Hne.
    destruct (Request.user req) as [u|] eqn:Hu.
    + apply (dispatch_get_object_Raise CommentView); auto.
      * unfold check_permissions. simpl. unfold is_authenticated.
        by rewrite Hu, Hunsafe.
      * replace (if is_authenticated req then _ else _)
          with (permission_denied req) by done.
        apply (get_object_denied CommentView a req st
                 (post_comments st (Comment.post c, p)) pk c); auto.
        -- simpl. unfold CommentViewSet.get_queryset, get_object_or_404.
           by rewrite Hpost, Hp.
        -- simpl. by apply map_lookup_filter_Some.
        -- simpl. rewrite Hu, Hunsafe. simpl.
           rewrite bool_decide_eq_false_2; [done|].
           intros E. by apply (Hne u).
    + unfold dispatch, check_permissions, permission_denied. simpl.
      unfold is_authenticated. by rewrite Hu, Hunsafe.
Qed.

Lemma non_author_write_forbidden_witness :
  dispatch PostView Update bob_edits_1 demo = (Error PermissionDenied, demo) ∧
  dispatch CommentView Update bob_edits_1 demo
    = (Error PermissionDenied, demo).
Proof.
  destruct (non_author_write_forbidden Update bob_edits_1 demo 1)
    as [HP HC]; [by left|reflexivity|].
  split.
  - apply (HP {| Post.text := "hello"; Post.author := 2; Post.group := None |});
      [reflexivity|].
    intros u [= <-]. by vm_compute.
  - apply (HC {| Comment.text := "first"; Comment.author := 2;
                 Comment.post := 1 |}); [reflexivity|reflexivity| |].
    + eexists. reflexivity.
    + intros u [= <-]. by vm_compute.
Defined.

(* ===================================================================== *)
(** * The subscriptions of a user *)
(* ===================================================================== *)

(** What [SearchFilter] keeps of the caller's edges. *)
Lemma follow_queryset_lookup (req : Request.t) (st : Store.t)
    (u : instance User.t) (pk : Z) (f : Follow.t) :
  SearchFilter req st (user_followers st u) !! pk = Some f ↔
  Store.follows st !! pk = Some f ∧ Follow.user f = u.1 ∧
  ∀ term, term ∈ Request.search req →
    ∃ w, Store.users st !! Follow.following f = Some w ∧
         icontains (User.username w) term = true.
Proof.
  unfold SearchFilter, user_followers.
  rewrite map_lookup_filter_Some, map_lookup_filter_Some. simpl.
  rewrite forallb_forall.
  split.
  - intros [[Hf Hu] Hs]. repeat split; auto.
    intros term Hin. apply list_elem_of_In, Hs in Hin.
    destruct (Store.users st !! Follow.following f) as [w|]; [|done]. eauto.
  - intros (Hf & Hu & Hs). repeat split; auto.
    intros term Hin. apply list_elem_of_In, Hs in Hin as (w & -> & E). done.
Qed.

(** C7, the input on which it fails: bob follows alice and carol; his list
    searched for "ali" holds the edge to alice only, so the edge to carol,
    whose follower is bob, is missing from it. *)
Lemma follow_list_search_narrows :
  Store.follows demo_two !! 2 = Some bob_carol ∧
  Follow.user bob_carol = bob.1 ∧
  dispatch (FollowView true) List search_ali demo_two
    = (HTTP_200_list {[ 1 := bob_alice ]}, demo_two).
Proof. repeat split; by vm_compute. Qed.

(** C7, amended.  Listing follows as [u] answers with edges of the store
    whose follower is [u], never with an edge of another follower: exactly
    those whose followed username contains every search term, hence
    exactly the edges whose follower is [u] when the request carries no
    search term.  The database is unchanged. *)
Theorem follow_list_own_edges
    (unique_constraint : bool) (req : Request.t) (st : Store.t)
    (u : instance User.t) :
  Request.user req = Some u →
  ∃ rows,
    dispatch (FollowView unique_constraint) List req st
      = (HTTP_200_list rows, st) ∧
    (∀ pk f, rows !! pk = Some f ↔
       Store.follows st !! pk = Some f ∧ Follow.user f = u.1 ∧
       ∀ term, term ∈ Request.search req →
         ∃ w, Store.users st !! Follow.following f = Some w ∧
              icontains (User.username w) term = true) ∧
    (Request.search req = [] →
     ∀ pk f, rows !! pk = Some f ↔
       Store.follows st !! pk = Some f ∧ Follow.user f = u.1).
Proof.
  intros Hu. exists (SearchFilter req st (user_followers st u)).
  split; [|split].
  - unfold dispatch, check_permissions. simpl.
    unfold is_authenticated, FollowViewSet.get_queryset. by rewrite Hu.
  - intros pk f. apply follow_queryset_lookup.
  - intros Hs pk f. rewrite follow_queryset_lookup, Hs.
    split; [by intros (? & ? & _)|].
    intros [? ?]. repeat split; auto. by intros term ?%elem_of_nil.
Qed.

Lemma follow_list_own_edges_witness :
  ∃ rows,
    dispatch (FollowView true) List search_ali demo_two
      = (HTTP_200_list rows, demo_two) ∧
    (∀ pk f, rows !! pk = Some f ↔
       Store.follows demo_two !! pk = Some f ∧ Follow.user f = bob.1 ∧
       ∀ term, term ∈ Request.search search_ali →
         ∃ w, Store.users demo_two !! Follow.following f = Some w ∧
              icontains (User.username w) term = true) ∧
    (Request.search search_ali = [] →
     ∀ pk f, rows !! pk = Some f ↔
       Store.follows demo_two !! pk = Some f ∧ Follow.user f = bob.1).
Proof.
  apply (follow_list_own_edges true search_ali demo_two bob).
  reflexivity.
Defined.

(** C10.  The detail actions on a Follow edge are scoped to the caller's
    own edges: for an authenticated caller [u] and an edge stored under
    the key of the URL whose follower is not [u], retrieve, update,
    partial update and delete all answer as not found, and the database
    is unchanged. *)
Theorem follow_detail_foreign_edge_not_found
    (unique_constraint : bool) (a : action) (req : Request.t) (st : Store.t)
    (u : instance User.t) (pk : Z) (f : Follow.t) :
  a = Retrieve ∨ a = Update ∨ a = PartialUpdate ∨ a = Destroy →
  Request.user req = Some u →
  Request.kwargs req !! "pk" = Some pk →
  Store.follows st !! pk = Some f →
  Follow.user f ≠ u.1 →
  dispatch (FollowView unique_constraint) a req st = (Error Http404, st).
Proof.
  intros Ha Hu Hk Hf Hne.
  apply (dispatch_get_object_Raise (FollowView unique_constraint)).
  - destruct Ha as [->|[->|[->| ->]]]; auto.
  - by destruct Ha as [->|[->|[->| ->]]].
  - unfold check_permissions. simpl. unfold is_authenticated. by rewrite Hu.
  - done.
  - apply (get_object_404 (FollowView unique_constraint) a req st
             (user_followers st u) pk); auto.
    + simpl. unfold FollowViewSet.get_queryset. by rewrite Hu.
    + simpl. destruct (SearchFilter req st (user_followers st u) !! pk)
        as [g|] eqn:E; [|done].
      apply follow_queryset_lookup in E as (Hg & Hgu & _). congruence.
Qed.

Lemma follow_detail_foreign_edge_not_found_witness :
  dispatch (FollowView true) Update carol_on_edge_1 demo
  = (Error Http404, demo).
Proof.
  apply (follow_detail_foreign_edge_not_found true Update carol_on_edge_1
           demo carol 1 bob_alice).
  - right; by left.
  - reflexivity.
  - reflexivity.
  - reflexivity.
  - by vm_compute.
Defined.

(* ===================================================================== *)
(** * The life of a Follow edge *)
(* ===================================================================== *)

(** The calls on posts, comments and groups do not touch the Follow
    table. *)
Lemma other_resources_keep_follows (a : action) (req : Request.t)
    (st : Store.t) :
  (∀ st', st' = (dispatch PostView a req st).2 ∨
          st' = (dispatch CommentView a req st).2 ∨
          st' = (dispatch GroupView a req st).2 →
          Store.follows st' = Store.follows st ∧
          Store.follow_seq st' = Store.follow_seq st).
Proof.
  intros st' [->|[->| ->]].
  - destruct (dispatch_store PostView a req st)
      as [->|[[_ (d & obj & _ & H)]|[[_ (obj & p & d & obj' & _ & _ & H)]
         |[_ (obj & _ & ->)]]]]; [done| | |done].
    + revert H. simpl. unfold PostViewSet.perform_create, PostSerializer.save,
        PostSerializer.create. simpl.
      destruct (Request.user req); [|done]. by intros [= _ <-].
    + revert H. simpl. unfold PostSerializer.update.
      destruct (PostSerializer.author d) as [[?|]|]; [|done|];
        by intros [= _ <-].
  - destruct (dispatch_store CommentView a req st)
      as [->|[[_ (d & obj & _ & H)]|[[_ (obj & p & d & obj' & _ & _ & H)]
         |[_ (obj & _ & ->)]]]]; [done| | |done].
    + revert H. simpl. unfold CommentViewSet.perform_create,
        get_object_or_404, CommentSerializer.save, CommentSerializer.create.
      destruct (Request.kwargs req !! "post_id") as [id|]; [|done].
      destruct (Store.posts st !! id); simpl; [|done].
      destruct (Request.user req); [|done]. by intros [= _ <-].
    + revert H. simpl. unfold CommentSerializer.update.
      destruct (CommentSerializer.author d) as [[?|]|]; [|done|];
        by intros [= _ <-].
  - destruct (dispatch_store GroupView a req st)
      as [->|[[_ (d & obj & _ & H)]|[[_ (obj & p & d & obj' & _ & _ & H)]
         |[_ (obj & _ & ->)]]]]; done.
Qed.

(** A Follow creation writes the row under the next key of the sequence. *)
Lemma follow_create_store (unique_constraint : bool) (req : Request.t)
    (st st' : Store.t) (d : FollowSerializer.validated_data)
    (obj : instance Follow.t) :
  FollowViewSet.perform_create unique_constraint req st d = Ok (obj, st') →
  st' = Store.with_follows st
          (<[Store.follow_seq st := obj.2]> (Store.follows st))
          (Store.follow_seq st + 1).
Proof.
  unfold FollowViewSet.perform_create, FollowSerializer.save,
    FollowSerializer.create. simpl.
  destruct (Request.user req); [|done].
  destruct (FollowSerializer.following d); [|done].
  destruct (unique_constraint && _); [done|]. by intros [= <- <-].
Qed.

(** A Follow update rewrites the row under the key of the instance. *)
Lemma follow_update_store (unique_constraint : bool) (st st' : Store.t)
    (d : FollowSerializer.validated_data) (obj obj' : instance Follow.t) :
  FollowSerializer.save unique_constraint st (Some obj) d = Ok (obj', st') →
  st' = Store.with_follows st (<[obj.1 := obj'.2]> (Store.follows st))
          (Store.follow_seq st).
Proof.
  unfold FollowSerializer.save, FollowSerializer.update.
  destruct (FollowSerializer.user d) as [[?|]|]; [|done|];
    (destruct (unique_constraint && _); [done|]); by intros [= <- <-].
Qed.

(** The object of a Follow detail action is an edge of the caller. *)
Lemma follow_get_object (unique_constraint : bool) (a : action)
    (req : Request.t) (st : Store.t) (obj : instance Follow.t) :
  get_object (FollowView unique_constraint) a req st = Ok obj →
  ∃ u, Request.user req = Some u ∧
       Request.kwargs req !! "pk" = Some obj.1 ∧
       Store.follows st !! obj.1 = Some obj.2 ∧
       Follow.user obj.2 = u.1.
Proof.
  intros (qs & Hq & Hk & Hl & _)%get_object_Ok.
  simpl in Hq, Hl. unfold FollowViewSet.get_queryset in Hq.
  destruct (Request.user req) as [u|]; [|done].
  injection Hq as <-. apply follow_queryset_lookup in Hl as (? & ? & _).
  by exists u.
Qed.

Section FollowEdge.
Context (unique_constraint : bool) (pk : Z) (f : Follow.t).

(** One call that is not an update of the edge by its follower keeps it. *)
Lemma api_step_edge_kept (c : call) (st : Store.t) :
  is_follow_update pk (Follow.user f) c = false →
  edge_kept pk f st → edge_kept pk f (api_step unique_constraint c st).
Proof.
  intros Hc Hst. pose proof Hst as (Hfresh & Hpk & Hedge).
  destruct c as [[r a] req].
  assert (Hother : ∀ st', Store.follows st' = Store.follows st →
            Store.follow_seq st' = Store.follow_seq st → edge_kept pk f st').
  { intros st' E1 E2. unfold edge_kept, follow_seq_fresh. by rewrite E1, E2. }
  destruct r; unfold api_step.
  1-3: match goal with
       | |- edge_kept _ _ ?s =>
           destruct (other_resources_keep_follows a req st s) as [E1 E2];
             [auto|by apply Hother]
       end.
  destruct (dispatch_store (FollowView unique_constraint) a req st)
    as [E|[[_ (d & obj & _ & H)]|[[Ha (obj & p & d & obj' & Hg & _ & H)]
       |[_ (obj & Hg & E)]]]]; [by rewrite E| | |rewrite E].
  - apply follow_create_store in H as ->.
    unfold edge_kept, follow_seq_fresh. simpl. split; [|split; [lia|]].
    + apply map_Forall_insert_2; [lia|].
      eapply map_Forall_impl; [exact Hfresh|]. simpl. lia.
    + rewrite lookup_insert_ne by lia. done.
  - apply follow_update_store in H as ->.
    apply follow_get_object in Hg as (u & Hu & Hk & Hl & Hfu).
    unfold edge_kept, follow_seq_fresh. simpl. split; [|split; [done|]].
    + apply map_Forall_insert_2; [|done]. by apply (Hfresh _ _ Hl).
    + destruct (decide (obj.1 = pk)) as [Eq|Eq];
        [|by rewrite lookup_insert_ne].
      exfalso. rewrite Eq in Hk, Hl.
      destruct Hedge as [Hn|Hs]; [congruence|].
      assert (obj.2 = f) as Ef by congruence. rewrite Ef in Hfu.
      simpl in Hc. rewrite Hu, Hk, Hfu in Hc. simpl in Hc.
      rewrite !bool_decide_eq_true_2 in Hc by done.
      by destruct Ha as [-> | ->].
  - unfold edge_kept, follow_seq_fresh, delete_follow. simpl.
    split; [|split; [done|]].
    + apply map_Forall_delete. done.
    + destruct (decide (obj.1 = pk)) as [->|Eq].
      * left. apply lookup_delete_eq.
      * by rewrite lookup_delete_ne.
Qed.

Lemma api_run_edge_kept (cs : list call) (st : Store.t) :
  forallb (λ c, negb (is_follow_update pk (Follow.user f) c)) cs = true →
  edge_kept pk f st → edge_kept pk f (api_run unique_constraint cs st).
Proof.
  revert st. induction cs as [|c cs IH]; intros st Hcs Hst; [done|].
  simpl in Hcs. apply andb_true_iff in Hcs as [Hc Hcs].
  apply negb_true_iff in Hc.
  simpl. apply IH; [done|]. by apply api_step_edge_kept.
Qed.
End FollowEdge.

(** C9, the input on which it fails: edge 1 leads from bob to alice; bob's
    PATCH of its [following] turns it in place into the edge from bob to
    carol, and bob's PUT with carol in the [user] field hands it to
    carol. *)
Lemma follow_edge_updated_in_place :
  Store.follows demo !! 1 = Some bob_alice ∧
  dispatch (FollowView true) PartialUpdate bob_refollows_carol demo
    = (HTTP_200 1 bob_carol, Store.with_follows demo {[ 1 := bob_carol ]} 2) ∧
  Store.follows
    (api_run true [(follow, PartialUpdate, bob_refollows_carol)] demo) !! 1
    = Some bob_carol ∧
  Store.follows
    (api_run true [(follow, Update, bob_hands_edge_to_carol)] demo) !! 1
    = Some carol_alice.
Proof. repeat split; by vm_compute. Qed.

(** C9, amended.  The pair of a Follow edge is changed only by a PUT or
    PATCH of that edge made by its follower: after any sequence of API
    calls that holds no such update, an edge that was stored as [f] is
    either deleted or still stored as [f]. *)
Theorem follow_pair_changed_only_by_own_update
    (unique_constraint : bool) (cs : list call) (st : Store.t)
    (pk : Z) (f : Follow.t) :
  follow_seq_fresh st →
  Store.follows st !! pk = Some f →
  forallb (λ c, negb (is_follow_update pk (Follow.user f) c)) cs = true →
  Store.follows (api_run unique_constraint cs st) !! pk = None ∨
  Store.follows (api_run unique_constraint cs st) !! pk = Some f.
Proof.
  intros Hfresh Hf Hcs.
  apply (api_run_edge_kept unique_constraint pk f cs st Hcs).
  split; [done|]. split; [by apply (Hfresh _ _ Hf)|by right].
Qed.

Lemma follow_pair_changed_only_by_own_update_witness :
  Store.follows (api_run true busy_calls demo) !! 1 = None ∨
  Store.follows (api_run true busy_calls demo) !! 1 = Some bob_alice.
Proof.
  apply (follow_pair_changed_only_by_own_update true busy_calls demo 1
           bob_alice).
  - apply (bool_decide_unpack _). by vm_compute.
  - reflexivity.
  - by vm_compute.
Defined.

(** The calls of the witness do reach the Follow table: edge 2 is created
    and deleted again, and the sequence has moved on. *)
Example busy_calls_run :
  dispatch (FollowView true) Create
    (request (Some bob) {[ "following" := JStr "carol" ]} ∅) demo
    = (HTTP_201 2 bob_carol,
       Store.with_follows demo {[ 1 := bob_alice; 2 := bob_carol ]} 3) ∧
  Store.follows (api_run true busy_calls demo) = {[ 1 := bob_alice ]} ∧
  Store.follow_seq (api_run true busy_calls demo) = 3.
Proof. repeat split; by vm_compute. Qed.

(* ===================================================================== *)
(** * Follow creation and update: the accepted requests *)
(* ===================================================================== *)

Lemma qs_exists_false {Row} (P : Z → Row → bool) (qs : gmap Z Row) :
  qs_exists P qs = false ↔ ∀ k r, qs !! k = Some r → P k r = false.
Proof.
  split.
  - intros Hf k r Hk. destruct (P k r) eqn:E; [|done].
    assert (qs_exists P qs = true) by (apply qs_exists_true; eauto).
    congruence.
  - intros H. destruct (qs_exists P qs) eqn:E; [|done].
    apply qs_exists_true in E as (k & r & Hk & HP).
    rewrite (H k r Hk) in HP. done.
Qed.

(** The pairs of the table are those of its rows. *)
Lemma elem_of_follow_pairs (st : Store.t) (a b : Z) :
  (a, b) ∈ follow_pairs st ↔
  ∃ k g, Store.follows st !! k = Some g ∧
         Follow.user g = a ∧ Follow.following g = b.
Proof.
  unfold follow_pairs, pairs_of. rewrite list_elem_of_fmap. split.
  - intros ([k g] & [= -> ->] & Hin). exists k, g.
    by apply elem_of_map_to_list in Hin.
  - intros (k & g & Hk & <- & <-). exists (k, g). split; [done|].
    by apply elem_of_map_to_list.
Qed.

(** The [following] field resolves the username of another user to that
    user's row. *)
Lemma following_field_other (st : Store.t) (req : Request.t) (partial : bool)
    (w : instance User.t) :
  NoDup (usernames st) →
  Store.users st !! w.1 = Some w.2 →
  Request.data req !! "following" = Some (JStr (User.username w.2)) →
  User.username w.2 ≠ "" →
  FollowSerializer.is_request_user req w = false →
  FollowSerializer.following_field st req partial = Value w.
Proof.
  intros Hnd Hw Hf Hne Hself.
  pose proof (get_user_by_username_found st w.1 w.2 Hnd Hw) as Hget.
  unfold FollowSerializer.following_field, RelatedField_run_validation,
    Field_run_validation, SlugRelatedField_to_internal_value.
  rewrite Hf. destruct w as [k r]. simpl in *.
  destruct (User.username r) as [|c n] eqn:E; [done|].
  simpl. rewrite Hget. unfold FollowSerializer.validate_following.
  by rewrite Hself.
Qed.

(** Left out of the body, the [user] field is the caller. *)
Lemma user_field_default (st : Store.t) (req : Request.t) :
  Request.data req !! "user" = None →
  FollowSerializer.user_field st req false = Value (Request.user req).
Proof.
  intros H. unfold FollowSerializer.user_field, RelatedField_run_validation,
    Field_run_validation. by rewrite H.
Qed.

(** X1.  A Follow creation that names another existing user, leaves
    [user] to its default and does not repeat an edge of the caller is
    answered 201: the edge (caller, followed) is stored under the next key
    of the sequence, and nothing else in the database changes. *)
Theorem follow_create_accepted
    (unique_constraint : bool) (req : Request.t) (st : Store.t)
    (u w : instance User.t) :
  NoDup (usernames st) →
  Request.user req = Some u →
  Request.data req !! "user" = None →
  Request.data req !! "following" = Some (JStr (User.username w.2)) →
  Store.users st !! w.1 = Some w.2 →
  User.username w.2 ≠ "" →
  w.1 ≠ u.1 →
  (u.1, w.1) ∉ follow_pairs st →
  dispatch (FollowView unique_constraint) Create req st
  = (HTTP_201 (Store.follow_seq st)
       {| Follow.user := u.1; Follow.following := w.1 |},
     Store.with_follows st
       (<[Store.follow_seq st :=
            {| Follow.user := u.1; Follow.following := w.1 |}]>
          (Store.follows st))
       (Store.follow_seq st + 1)).
Proof.
  intros Hnd Hu Hnone Hf Hw Hne Hother Hnew'.
  assert (Hnew : ∀ k g, Store.follows st !! k = Some g →
            ¬ (Follow.user g = u.1 ∧ Follow.following g = w.1)).
  { intros k g Hk [? ?]. apply Hnew', elem_of_follow_pairs. by exists k, g. }
  assert (Hself : FollowSerializer.is_request_user req w = false).
  { unfold FollowSerializer.is_request_user. rewrite Hu.
    by apply bool_decide_eq_false_2. }
  unfold dispatch, check_permissions. simpl. unfold is_authenticated.
  rewrite Hu. simpl.
  unfold FollowSerializer.run_validation, FollowSerializer.to_internal_value.
  rewrite (following_field_other st req false w Hnd Hw Hf Hne Hself).
  rewrite (user_field_default st req Hnone), Hu. simpl.
  unfold FollowSerializer.UniqueTogetherValidator. simpl.
  match goal with
  | |- context [qs_exists ?P ?m] => assert (E : qs_exists P m = false)
  end.
  { apply qs_exists_false. intros k g Hk. simpl.
    destruct (bool_decide (Follow.user g = u.1)) eqn:E1;
      destruct (bool_decide (Follow.following g = w.1)) eqn:E2; try done.
    apply bool_decide_eq_true_1 in E1, E2. by destruct (Hnew k g Hk). }
  rewrite E. simpl.
  unfold FollowViewSet.perform_create, FollowSerializer.save,
    FollowSerializer.create. simpl. rewrite Hu.
  assert (T : follow_pair_taken st (Store.follow_seq st)
                {| Follow.user := u.1; Follow.following := w.1 |} = false).
  { apply qs_exists_false. intros k g Hk. simpl.
    destruct (bool_decide (Follow.user g = u.1)) eqn:E1;
      destruct (bool_decide (Follow.following g = w.1)) eqn:E2;
      rewrite ?andb_false_r; try done.
    apply bool_decide_eq_true_1 in E1, E2. by destruct (Hnew k g Hk). }
  rewrite T, andb_false_r. done.
Qed.

Lemma follow_create_accepted_witness :
  dispatch (FollowView true) Create follow_carol demo
  = (HTTP_201 2 bob_carol,
     Store.with_follows demo (<[2 := bob_carol]> (Store.follows demo)) (2 + 1)).
Proof.
  apply (follow_create_accepted true follow_carol demo bob carol).
  - apply (bool_decide_unpack _). by vm_compute.
  - reflexivity.
  - reflexivity.
  - reflexivity.
  - reflexivity.
  - discriminate.
  - by vm_compute.
  - apply (bool_decide_unpack _). by vm_compute.
Defined.

(** What validation returns for [following] passed [validate_following]:
    it is not the caller. *)
Lemma follow_validated_following (st : Store.t) (req : Request.t)
    (partial : bool) (d : FollowSerializer.validated_data)
    (w : instance User.t) :
  FollowSerializer.to_internal_value st req partial = Ok d →
  FollowSerializer.following d = Some w →
  FollowSerializer.is_request_user req w = false.
Proof.
  unfold FollowSerializer.to_internal_value, to_internal_value_result.
  destruct (first_exception _); [done|].
  destruct (_ ++ _)%list; [|done].
  intros [= <-]. simpl.
  unfold FollowSerializer.following_field.
  destruct (RelatedField_run_validation _ _ _ _ _ _) as [v| | |]; try done.
  unfold FollowSerializer.validate_following.
  destruct (FollowSerializer.is_request_user req v) eqn:E; [done|].
  by intros [= <-].
Qed.

(** A create answered 201 validated its body and ran [perform_create]. *)
Lemma dispatch_Create_201 {Row Data} (V : ViewSet Row Data)
    (req : Request.t) (st st' : Store.t) (pk : Z) (row : Row) :
  dispatch V Create req st = (HTTP_201 pk row, st') →
  check_permissions V Create req = Ok () ∧
  ∃ d, run_validation V st req None false = Ok d ∧
       perform_create V req st d = Ok ((pk, row), st').
Proof.
  unfold dispatch.
  destruct (check_permissions V Create req) as [[]|e]; [|done].
  destruct (http_actions V Create); simpl; [|done].
  destruct (run_validation V st req None false) as [d|e]; simpl; [|done].
  destruct (perform_create V req st d) as [[[k r] s]|e] eqn:E; [|done].
  simpl. intros [= <- <- <-]. split; [done|]. by exists d.
Qed.

(** [Serializer.run_validation] succeeds when the fields and the
    validator do. *)
Lemma follow_run_validation_Ok (st : Store.t) (req : Request.t)
    (inst : option (instance Follow.t)) (partial : bool)
    (d : FollowSerializer.validated_data) :
  FollowSerializer.run_validation st req inst partial = Ok d →
  FollowSerializer.to_internal_value st req partial = Ok d ∧
  FollowSerializer.UniqueTogetherValidator st inst d = Ok ().
Proof.
  unfold FollowSerializer.run_validation, bind.
  destruct (FollowSerializer.to_internal_value st req partial) as [d'|e];
    [|done].
  destruct (FollowSerializer.UniqueTogetherValidator st inst d') as [[]|e]
    eqn:Hu; [|done].
  by intros [= <-].
Qed.

(** X2.  Every Follow creation that is answered 201 stored an edge whose
    follower is the caller and whose followed user is someone else: the
    create action never stores a self-follow, whatever the body holds. *)
Theorem follow_create_never_self
    (unique_constraint : bool) (req : Request.t) (st st' : Store.t)
    (pk : Z) (row : Follow.t) :
  dispatch (FollowView unique_constraint) Create req st
    = (HTTP_201 pk row, st') →
  ∃ u, Request.user req = Some u ∧
       Follow.user row = u.1 ∧
       Follow.following row ≠ u.1 ∧
       Store.follows st' !! pk = Some row.
Proof.
  intros (Hp & d & Hv & Hc)%dispatch_Create_201.
  apply follow_run_validation_Ok in Hv as [Hv _].
  revert Hp Hc. unfold check_permissions. simpl.
  unfold is_authenticated, FollowViewSet.perform_create,
    FollowSerializer.save, FollowSerializer.create. simpl.
  destruct (Request.user req) as [u|] eqn:Hu; [|done]. intros _.
  destruct (FollowSerializer.following d) as [w|] eqn:Hw; [|done].
  destruct (unique_constraint && _); [done|].
  intros [= <- <- <-]. exists u. simpl. rewrite lookup_insert_eq.
  repeat split; try done.
  pose proof (follow_validated_following st req false d w Hv Hw) as Hself.
  unfold FollowSerializer.is_request_user in Hself. rewrite Hu in Hself.
  by apply bool_decide_eq_false_1 in Hself.
Qed.

Lemma follow_create_never_self_witness :
  ∃ u, Request.user follow_carol_as_alice = Some u ∧
       Follow.user bob_carol = u.1 ∧
       Follow.following bob_carol ≠ u.1 ∧
       Store.follows
         (dispatch (FollowView true) Create follow_carol_as_alice demo).2 !! 2
       = Some bob_carol.
Proof.
  apply (follow_create_never_self true follow_carol_as_alice demo).
  by vm_compute.
Defined.

Lemma follow_create_duplicate_rejected_witness :
  ∃ detail,
    dispatch (FollowView false) Create follow_alice demo
      = (Error (ValidationError detail), demo).
Proof.
  apply (follow_create_duplicate_rejected false follow_alice demo bob alice
           "alice" 1).
  - apply (bool_decide_unpack _). by vm_compute.
  - reflexivity.
  - reflexivity.
  - reflexivity.
  - reflexivity.
  - reflexivity.
  - reflexivity.
Defined.

(** X5.  [following] is required and must name a stored user: a creation
    whose body has no [following] key is refused with the error
    [required] on that field, one whose [following] names no stored user
    with [does_not_exist], and neither writes anything. *)
Theorem follow_create_following_required
    (unique_constraint : bool) (req : Request.t) (st : Store.t) :
  NoDup (usernames st) →
  is_Some (Request.user req) →
  (Request.data req !! "following" = None →
   ∃ detail,
     dispatch (FollowView unique_constraint) Create req st
       = (Error (ValidationError detail), st) ∧
     ("following", "required") ∈ detail) ∧
  (∀ name, Request.data req !! "following" = Some (JStr name) →
     name ≠ "" → name ∉ usernames st →
     ∃ detail,
       dispatch (FollowView unique_constraint) Create req st
         = (Error (ValidationError detail), st) ∧
       ("following", "does_not_exist") ∈ detail).
Proof.
  intros Hnd [u Hu].
  pose proof (user_field_no_exception st req false Hnd) as Hx.
  assert (Hgen : ∀ msg,
    FollowSerializer.following_field st req false = Invalid msg →
    ∃ detail,
      dispatch (FollowView unique_constraint) Create req st
        = (Error (ValidationError detail), st) ∧
      ("following", msg) ∈ detail).
  { intros msg Hf. unfold dispatch, check_permissions. simpl.
    unfold is_authenticated. rewrite Hu. simpl.
    unfold FollowSerializer.run_validation,
      FollowSerializer.to_internal_value, to_internal_value_result.
    rewrite Hf. simpl. rewrite Hx. simpl.
    set (errs := (field_errors "user" _ ++ [("following", msg)])%list).
    assert (Hin : ("following", msg) ∈ errs)
      by (apply elem_of_app; right; by left).
    clearbody errs. destruct errs as [|e errs']; [by inversion Hin|].
    simpl. eauto. }
  split.
  - intros Hnone. apply Hgen.
    unfold FollowSerializer.following_field, RelatedField_run_validation,
      Field_run_validation. by rewrite Hnone.
  - intros name Hname Hne Hnot. apply Hgen.
    unfold FollowSerializer.following_field, RelatedField_run_validation,
      Field_run_validation, SlugRelatedField_to_internal_value.
    rewrite Hname. destruct name as [|c n]; [done|]. simpl.
    destruct (get_user_by_username_cases st (String c n) Hnd)
      as [E|(w & E & Hw & Hn)]; [by rewrite E|].
    exfalso. apply Hnot. unfold usernames. apply list_elem_of_fmap.
    exists (w.1, w.2). split; [done|]. by apply elem_of_map_to_list.
Qed.

Lemma follow_create_following_required_witness :
  (Request.data follow_dave !! "following" = None →
   ∃ detail,
     dispatch (FollowView true) Create follow_dave demo
       = (Error (ValidationError detail), demo) ∧
     ("following", "required") ∈ detail) ∧
  (∀ name, Request.data follow_dave !! "following" = Some (JStr name) →
     name ≠ "" → name ∉ usernames demo →
     ∃ detail,
       dispatch (FollowView true) Create follow_dave demo
         = (Error (ValidationError detail), demo) ∧
       ("following", "does_not_exist") ∈ detail).
Proof.
  apply (follow_create_following_required true follow_dave demo).
  - apply (bool_decide_unpack _). by vm_compute.
  - by eexists.
Defined.

(** The two refusals, run. *)
Example follow_nobody_and_dave :
  dispatch (FollowView true) Create follow_nobody demo
    = (Error (ValidationError [("following", "required")]), demo) ∧
  dispatch (FollowView true) Create follow_dave demo
    = (Error (ValidationError [("following", "does_not_exist")]), demo).
Proof. split; by vm_compute. Qed.

(* ===================================================================== *)
(** * The uniqueness of the (follower, followed) pairs *)
(* ===================================================================== *)

Lemma NoDup_of_submseteq {A} (l k : list A) : l ⊆+ k → NoDup k → NoDup l.
Proof.
  intros (l' & Hsub & Hperm)%submseteq_sublist_l Hnd.
  eapply sublist_NoDup; [|exact Hsub]. by rewrite Hperm.
Qed.

(** Writing a row whose pair no other row has keeps the pairs distinct. *)
Lemma NoDup_pairs_insert (m : gmap Z Follow.t) (k : Z) (x : Follow.t) :
  NoDup (pairs_of m) →
  (∀ k' g, m !! k' = Some g → k' ≠ k →
           ¬ (Follow.user g = Follow.user x ∧
              Follow.following g = Follow.following x)) →
  NoDup (pairs_of (<[k := x]> m)).
Proof.
  intros Hnd Hnew. unfold pairs_of in *.
  rewrite <- insert_delete_eq.
  rewrite map_to_list_insert by apply lookup_delete_eq.
  rewrite fmap_cons. apply NoDup_cons. split.
  - intros ([k' g] & [= E1 E2] & Hin)%list_elem_of_fmap.
    apply elem_of_map_to_list, lookup_delete_Some in Hin as [Hne Hk'].
    by apply (Hnew k' g Hk').
  - eapply NoDup_of_submseteq; [|exact Hnd].
    apply fmap_submseteq, map_to_list_submseteq, delete_subseteq.
Qed.

Lemma NoDup_pairs_delete (m : gmap Z Follow.t) (k : Z) :
  NoDup (pairs_of m) → NoDup (pairs_of (base.delete k m)).
Proof.
  intros Hnd. unfold pairs_of in *.
  eapply NoDup_of_submseteq; [|exact Hnd].
  apply fmap_submseteq, map_to_list_submseteq, delete_subseteq.
Qed.

(** On creation, a validator that passes saw both attributes and found no
    row with their pair. *)
Lemma unique_validator_create (st : Store.t)
    (d : FollowSerializer.validated_data) :
  FollowSerializer.UniqueTogetherValidator st None d = Ok () →
  ∃ u w, FollowSerializer.user d = Some (Some u) ∧
         FollowSerializer.following d = Some w ∧
         (u.1, w.1) ∉ follow_pairs st.
Proof.
  unfold FollowSerializer.UniqueTogetherValidator.
  destruct (FollowSerializer.user d) as [[u|]|],
    (FollowSerializer.following d) as [w|]; simpl; try done.
  destruct (qs_exists _ _) eqn:E; [done|]. intros _.
  exists u, w. repeat split.
  intros (k & g & Hk & Hu & Hf)%elem_of_follow_pairs.
  pose proof (proj1 (qs_exists_false _ _) E k g Hk) as HP. simpl in HP.
  by rewrite !bool_decide_eq_true_2 in HP.
Qed.

(** On update, a validator that passes found no other row with the pair
    the instance is about to take. *)
Lemma unique_validator_update (st : Store.t) (i : instance Follow.t)
    (d : FollowSerializer.validated_data) :
  FollowSerializer.UniqueTogetherValidator st (Some i) d = Ok () →
  ∀ k g, Store.follows st !! k = Some g → k ≠ i.1 →
    ¬ (Follow.user g = match FollowSerializer.user d with
                       | Some (Some u) => u.1
                       | _ => Follow.user i.2
                       end ∧
       Follow.following g = match FollowSerializer.following d with
                            | Some f => f.1
                            | None => Follow.following i.2
                            end).
Proof.
  unfold FollowSerializer.UniqueTogetherValidator.
  destruct (FollowSerializer.user d) as [[u|]|],
    (FollowSerializer.following d) as [w|]; simpl; try done;
    (destruct (qs_exists _ _) eqn:E; [done|]); intros _ k g Hk Hne [Hu Hf];
    pose proof (proj1 (qs_exists_false _ _) E k g Hk) as HP; simpl in HP;
    rewrite (bool_decide_eq_true_2 _ Hu), (bool_decide_eq_true_2 _ Hf) in HP;
    rewrite bool_decide_eq_true_2 in HP; try done; congruence.
Qed.

(** Left out of the body of a creation, [user] validates to the caller. *)
Lemma follow_validated_user_default (st : Store.t) (req : Request.t)
    (d : FollowSerializer.validated_data) :
  Request.data req !! "user" = None →
  FollowSerializer.to_internal_value st req false = Ok d →
  FollowSerializer.user d = Some (Request.user req).
Proof.
  intros Hnone. unfold FollowSerializer.to_internal_value,
    to_internal_value_result.
  rewrite (user_field_default st req Hnone).
  destruct (first_exception _); [done|].
  destruct (_ ++ _)%list; [|done]. by intros [= <-].
Qed.

Lemma follow_pair_taken_false (st : Store.t) (pk : Z) (f : Follow.t) :
  follow_pair_taken st pk f = false →
  ∀ k g, Store.follows st !! k = Some g → k ≠ pk →
    ¬ (Follow.user g = Follow.user f ∧ Follow.following g = Follow.following f).
Proof.
  intros E k g Hk Hne [Hu Hf].
  pose proof (proj1 (qs_exists_false _ _) E k g Hk) as HP. simpl in HP.
  by rewrite !bool_decide_eq_true_2 in HP.
Qed.

(** The row a Follow creation writes. *)
Lemma follow_create_row (unique_constraint : bool) (req : Request.t)
    (st st' : Store.t) (d : FollowSerializer.validated_data)
    (obj : instance Follow.t) :
  FollowViewSet.perform_create unique_constraint req st d = Ok (obj, st') →
  ∃ u w, Request.user req = Some u ∧
         FollowSerializer.following d = Some w ∧
         obj.2 = {| Follow.user := u.1; Follow.following := w.1 |} ∧
         (unique_constraint = true →
          follow_pair_taken st (Store.follow_seq st) obj.2 = false).
Proof.
  unfold FollowViewSet.perform_create, FollowSerializer.save,
    FollowSerializer.create. simpl.
  destruct (Request.user req) as [u|]; [|done].
  destruct (FollowSerializer.following d) as [w|]; [|done].
  destruct unique_constraint; simpl.
  - destruct (follow_pair_taken _ _ _) eqn:E; [done|].
    intros [= <- <-]. by exists u, w.
  - intros [= <- <-]. by exists u, w.
Qed.

(** The row a Follow update writes. *)
Lemma follow_update_row (unique_constraint : bool) (st st' : Store.t)
    (d : FollowSerializer.validated_data) (i obj' : instance Follow.t) :
  FollowSerializer.save unique_constraint st (Some i) d = Ok (obj', st') →
  obj'.2 = {| Follow.user := match FollowSerializer.user d with
                             | Some (Some u) => u.1
                             | _ => Follow.user i.2
                             end;
              Follow.following := match FollowSerializer.following d with
                                  | Some f => f.1
                                  | None => Follow.following i.2
                                  end |}.
Proof.
  unfold FollowSerializer.save, FollowSerializer.update.
  destruct (FollowSerializer.user d) as [[?|]|]; [|done|];
    (destruct (unique_constraint && _); [done|]); by intros [= <- <-].
Qed.

(** One call keeps the pairs of the Follow table distinct and its
    sequence ahead of its keys, unless it is a creation that names [user]
    on a table without the uniqueness constraint. *)
Lemma api_step_pairs_unique (unique_constraint : bool) (c : call)
    (st : Store.t) :
  unique_constraint = true ∨ names_user_on_create c = false →
  NoDup (follow_pairs st) ∧ follow_seq_fresh st →
  NoDup (follow_pairs (api_step unique_constraint c st)) ∧
  follow_seq_fresh (api_step unique_constraint c st).
Proof.
  intros Hc [Hnd Hfresh]. destruct c as [[r a] req].
  assert (Hother : ∀ st', Store.follows st' = Store.follows st →
            Store.follow_seq st' = Store.follow_seq st →
            NoDup (follow_pairs st') ∧ follow_seq_fresh st').
  { intros st' E1 E2. unfold follow_pairs, follow_seq_fresh.
    by rewrite E1, E2. }
  destruct r; unfold api_step.
  1-3: match goal with
       | |- NoDup (follow_pairs ?s) ∧ _ =>
           destruct (other_resources_keep_follows a req st s) as [E1 E2];
             [auto|by apply Hother]
       end.
  destruct (dispatch_store (FollowView unique_constraint) a req st)
    as [E|[[Ha (d & obj & Hv & H)]
       |[[Ha (obj & p & d & obj' & Hg & Hv & H)]|[_ (obj & Hg & E)]]]].
  - by rewrite E.
  - pose proof (follow_create_store _ _ _ _ _ _ H) as ->.
    apply follow_create_row in H as (u & w & Hu & Hw & Hrow & Htaken).
    apply follow_run_validation_Ok in Hv as [Hv Hval].
    unfold follow_pairs, follow_seq_fresh. simpl. split.
    + apply NoDup_pairs_insert; [done|].
      destruct Hc as [->|Hc].
      * intros k g Hk Hne.
        exact (follow_pair_taken_false _ _ _ (Htaken eq_refl) k g Hk Hne).
      * subst a. simpl in Hc. apply bool_decide_eq_false_1 in Hc.
        assert (Hnone : Request.data req !! "user" = None).
        { destruct (Request.data req !! "user"); [|done].
          exfalso. apply Hc. by eexists. }
        pose proof (follow_validated_user_default st req d Hnone Hv) as Hdu.
        apply unique_validator_create in Hval as (u' & w' & Hu' & Hw' & Hnot).
        rewrite Hu in Hdu. rewrite Hdu in Hu'. injection Hu' as <-.
        rewrite Hw in Hw'. injection Hw' as <-.
        intros k g Hk _ [E1 E2]. apply Hnot, elem_of_follow_pairs.
        exists k, g. rewrite Hrow in E1, E2. by simpl in *.
    + apply map_Forall_insert_2; [lia|].
      eapply map_Forall_impl; [exact Hfresh|]. simpl. lia.
  - pose proof (follow_update_store _ _ _ _ _ _ H) as ->.
    apply follow_update_row in H as Hrow.
    apply follow_get_object in Hg as (u & Hu & Hk & Hl & Hfu).
    simpl in Hv. apply follow_run_validation_Ok in Hv as [_ Hval].
    unfold follow_pairs, follow_seq_fresh. simpl. split.
    + apply NoDup_pairs_insert; [done|].
      intros k g Hkg Hne. rewrite Hrow. simpl.
      exact (unique_validator_update st obj d Hval k g Hkg Hne).
    + apply map_Forall_insert_2; [|done]. by apply (Hfresh _ _ Hl).
  - rewrite E. unfold follow_pairs, follow_seq_fresh, delete_follow. simpl.
    split; [by apply NoDup_pairs_delete|by apply map_Forall_delete].
Qed.

(** X4.  The pairs of the Follow table stay distinct.  Starting from a
    table without a repeated (follower, followed) pair, no sequence of API
    calls produces one, as long as no Follow creation in it carries a
    [user] key in its body (or the table has the uniqueness constraint):
    creations that leave [user] to its default, updates and deletes all
    keep the pairs distinct. *)
Theorem follow_pairs_stay_unique
    (unique_constraint : bool) (cs : list call) (st : Store.t) :
  NoDup (follow_pairs st) →
  follow_seq_fresh st →
  unique_constraint = true ∨
    forallb (λ c, negb (names_user_on_create c)) cs = true →
  NoDup (follow_pairs (api_run unique_constraint cs st)).
Proof.
  intros Hnd Hfresh Hcs.
  assert (H : NoDup (follow_pairs (api_run unique_constraint cs st)) ∧
              follow_seq_fresh (api_run unique_constraint cs st));
    [|by destruct H].
  revert st Hnd Hfresh. induction cs as [|c cs IH]; intros st Hnd Hfresh;
    [done|].
  simpl. 
  assert (Hc : unique_constraint = true ∨ names_user_on_create c = false).
  { destruct Hcs as [?|H]; [by left|right].
    simpl in H. apply andb_true_iff in H as [H _].
    by apply negb_true_iff in H. }
  assert (Hcs' : unique_constraint = true ∨
            forallb (λ c, negb (names_user_on_create c)) cs = true).
  { destruct Hcs as [?|H]; [by left|right].
    simpl in H. by apply andb_true_iff in H as [_ H]. }
  destruct (api_step_pairs_unique unique_constraint c st Hc) as [H1 H2];
    [done|].
  by apply IH.
Qed.

Lemma follow_pairs_stay_unique_witness :
  NoDup (follow_pairs (api_run false busy_calls demo)).
Proof.
  apply (follow_pairs_stay_unique false busy_calls demo).
  - apply (bool_decide_unpack _). by vm_compute.
  - apply (bool_decide_unpack _). by vm_compute.
  - right. by vm_compute.
Defined.

(* ===================================================================== *)
(** * Who may call what *)
(* ===================================================================== *)

(** X6.  The Follow resource is closed to anonymous callers: whatever the
    action, the body and the URL, a request without an authenticated user
    is answered as not authenticated and the database is unchanged. *)
Theorem follow_anonymous_refused
    (unique_constraint : bool) (a : action) (req : Request.t) (st : Store.t) :
  Request.user req = None →
  dispatch (FollowView unique_constraint) a req st
  = (Error NotAuthenticated, st).
Proof.
  intros Hu. unfold dispatch, check_permissions, permission_denied. simpl.
  unfold is_authenticated. by rewrite Hu.
Qed.

Lemma follow_anonymous_refused_witness :
  dispatch (FollowView true) List anonymous_on_1 demo
  = (Error NotAuthenticated, demo).
Proof.
  apply (follow_anonymous_refused true List anonymous_on_1 demo).
  reflexivity.
Defined.

(** X7.  Posts, comments and groups are read-only for anonymous callers:
    a create, update, partial update or delete without an authenticated
    user is answered as not authenticated on each of the three resources,
    before any lookup or validation, and the database is unchanged. *)
Theorem anonymous_write_refused
    (a : action) (req : Request.t) (st : Store.t) :
  Request.user req = None →
  SAFE_METHODS a = false →
  dispatch PostView a req st = (Error NotAuthenticated, st) ∧
  dispatch CommentView a req st = (Error NotAuthenticated, st) ∧
  dispatch GroupView a req st = (Error NotAuthenticated, st).
Proof.
  intros Hu Ha. unfold dispatch, check_permissions, permission_denied.
  simpl. unfold is_authenticated. by rewrite Hu, Ha.
Qed.

Lemma anonymous_write_refused_witness :
  dispatch PostView Destroy anonymous_on_1 demo
    = (Error NotAuthenticated, demo) ∧
  dispatch CommentView Destroy anonymous_on_1 demo
    = (Error NotAuthenticated, demo) ∧
  dispatch GroupView Destroy anonymous_on_1 demo
    = (Error NotAuthenticated, demo).
Proof.
  apply (anonymous_write_refused Destroy anonymous_on_1 demo);
    reflexivity.
Defined.

(** X8.  The group resource is read-only.  No call on it changes the
    database; a list answers with the whole group table to any caller; and
    an authenticated create, update, partial update or delete is answered
    as method not allowed. *)
Theorem group_read_only (a : action) (req : Request.t) (st : Store.t) :
  (dispatch GroupView a req st).2 = st ∧
  (a = List →
   (dispatch GroupView a req st).1 = HTTP_200_list (Store.groups st)) ∧
  (SAFE_METHODS a = false → is_Some (Request.user req) →
   (dispatch GroupView a req st).1 = Error MethodNotAllowed).
Proof.
  split; [|split].
  - destruct (dispatch_store GroupView a req st)
      as [E|[[_ (d & obj & _ & H)]|[[_ (obj & p & d & obj' & _ & _ & H)]
         |[_ (obj & _ & E)]]]]; done.
  - intros ->. unfold dispatch, check_permissions. by simpl.
  - intros Ha [u Hu]. unfold dispatch, check_permissions. simpl.
    unfold is_authenticated. by rewrite Hu, Ha.
Qed.

(* ===================================================================== *)
(** * Comments under a post *)
(* ===================================================================== *)

(** X9.  A Comment creation that is answered 201 stored the comment under
    the caller and under the post of the URL, which exists: the author and
    post of the new row come from the request's user and path, and the
    same request with any [post] value in its body has the same
    outcome. *)
Theorem comment_create_binds_author_and_post
    (req : Request.t) (st st' : Store.t) (pk : Z) (row : Comment.t) :
  dispatch CommentView Create req st = (HTTP_201 pk row, st') →
  (∃ u, Request.user req = Some u ∧ Comment.author row = u.1) ∧
  Request.kwargs req !! "post_id" = Some (Comment.post row) ∧
  is_Some (Store.posts st !! Comment.post row) ∧
  Store.comments st' !! pk = Some row ∧
  ∀ v, dispatch CommentView Create
         (Request.with_data req (<["post" := v]> (Request.data req))) st
       = (HTTP_201 pk row, st').
Proof.
  intros H.
  assert (Hv : ∀ v, dispatch CommentView Create
             (Request.with_data req (<["post" := v]> (Request.data req))) st
           = dispatch CommentView Create req st).
  { intros v. unfold dispatch, check_permissions. simpl.
    unfold CommentSerializer.run_validation.
    by rewrite comment_validation_ignores_post. }
  apply dispatch_Create_201 in H as H'. destruct H' as (_ & d & _ & Hc).
  simpl in Hc. unfold CommentViewSet.perform_create, get_object_or_404,
    CommentSerializer.save, CommentSerializer.create in Hc.
  destruct (Request.kwargs req !! "post_id") as [id|]; [|done].
  destruct (Store.posts st !! id) as [p|] eqn:Hp; simpl in Hc; [|done].
  destruct (Request.user req) as [u|]; [|done].
  injection Hc as <- <- <-. simpl.
  repeat split.
  - by exists u.
  - by rewrite Hp.
  - by rewrite lookup_insert_eq.
  - intros v. by rewrite Hv.
Qed.

Lemma comment_create_binds_author_and_post_witness :
  (∃ u, Request.user comment_on_1 = Some u ∧ bob.1 = u.1) ∧
  Request.kwargs comment_on_1 !! "post_id" = Some 1 ∧
  is_Some (Store.posts demo !! 1) ∧
  Store.comments (dispatch CommentView Create comment_on_1 demo).2 !! 2
    = Some {| Comment.text := "nice"; Comment.author := bob.1;
              Comment.post := 1 |} ∧
  ∀ v, dispatch CommentView Create
         (Request.with_data comment_on_1
            (<["post" := v]> (Request.data comment_on_1))) demo
       = (HTTP_201 2 {| Comment.text := "nice"; Comment.author := bob.1;
                        Comment.post := 1 |},
          (dispatch CommentView Create comment_on_1 demo).2).
Proof.
  apply (comment_create_binds_author_and_post comment_on_1 demo
           (dispatch CommentView Create comment_on_1 demo).2 2
           {| Comment.text := "nice"; Comment.author := bob.1;
              Comment.post := 1 |}).
  by vm_compute.
Defined.

(** X10.  Listing the comments under an existing post answers, to any
    caller, with exactly the stored comments whose post is the post of the
    URL, and changes nothing. *)
Theorem comment_list_of_post
    (req : Request.t) (st : Store.t) (post_id : Z) :
  Request.kwargs req !! "post_id" = Some post_id →
  is_Some (Store.posts st !! post_id) →
  ∃ rows,
    dispatch CommentView List req st = (HTTP_200_list rows, st) ∧
    ∀ k c, rows !! k = Some c ↔
           Store.comments st !! k = Some c ∧ Comment.post c = post_id.
Proof.
  intros Hk [p Hp]. exists (post_comments st (post_id, p)). split.
  - unfold dispatch, check_permissions. simpl.
    unfold CommentViewSet.get_queryset, get_object_or_404.
    by rewrite Hk, Hp.
  - intros k c. unfold post_comments. by rewrite map_lookup_filter_Some.
Qed.

Lemma comment_list_of_post_witness :
  ∃ rows,
    dispatch CommentView List anonymous_on_1 demo_posts
      = (HTTP_200_list rows, demo_posts) ∧
    ∀ k c, rows !! k = Some c ↔
           Store.comments demo_posts !! k = Some c ∧ Comment.post c = 1.
Proof.
  apply (comment_list_of_post anonymous_on_1 demo_posts 1).
  - reflexivity.
  - by eexists.
Defined.

(** X11.  A comment can only be reached through its own post: a retrieve,
    or an update, partial update or delete by an authenticated caller,
    that addresses a stored comment under another post id is answered as
    not found, whether that other post exists or not, and the database is
    unchanged. *)
Theorem comment_under_other_post_not_found
    (a : action) (req : Request.t) (st : Store.t) (pk post_id : Z)
    (c : Comment.t) :
  a = Retrieve ∨
    ((a = Update ∨ a = PartialUpdate ∨ a = Destroy) ∧
     is_Some (Request.user req)) →
  Request.kwargs req !! "pk" = Some pk →
  Request.kwargs req !! "post_id" = Some post_id →
  Store.comments st !! pk = Some c →
  Comment.post c ≠ post_id →
  dispatch CommentView a req st = (Error Http404, st).
Proof.
  intros Ha Hpk Hpost Hc Hne.
  apply (dispatch_get_object_Raise CommentView).
  - destruct Ha as [->|[[->|[->| ->]] _]]; auto.
  - by destruct Ha as [->|[[->|[->| ->]] _]].
  - unfold check_permissions. simpl. unfold is_authenticated.
    destruct Ha as [->|[_ [u ->]]]; [done|]. by rewrite !orb_true_r.
  - done.
  - destruct (Store.posts st !! post_id) as [p|] eqn:Hp.
    + apply (get_object_404 CommentView a req st
               (post_comments st (post_id, p)) pk); auto.
      * simpl. unfold CommentViewSet.get_queryset, get_object_or_404.
        by rewrite Hpost, Hp.
      * simpl. apply map_lookup_filter_None. right.
        intros c' Hc' E. simpl in E. congruence.
    + unfold get_object. simpl.
      unfold CommentViewSet.get_queryset, get_object_or_404.
      by rewrite Hpost, Hp.
Qed.

Lemma comment_under_other_post_not_found_witness :
  dispatch CommentView Update carol_on_comment_2_of_1 demo_posts
  = (Error Http404, demo_posts).
Proof.
  apply (comment_under_other_post_not_found Update carol_on_comment_2_of_1
           demo_posts 2 1
           {| Comment.text := "second"; Comment.author := 3;
              Comment.post := 2 |}).
  - right. split; [by left|by eexists].
  - reflexivity.
  - reflexivity.
  - reflexivity.
  - by vm_compute.
Defined.

(** The comment of the witness is carol's own: under its post the same
    update goes through. *)
Example carol_updates_comment_2 :
  (dispatch CommentView Update
     (request (Some carol) {[ "text" := JStr "moved" ]}
        {[ "post_id" := 2; "pk" := 2 ]}) demo_posts).1
  = HTTP_200 2 {| Comment.text := "moved"; Comment.author := 3;
                  Comment.post := 2 |}.
Proof. by vm_compute. Qed.

(* ===================================================================== *)
(** * The follower's own edge *)
(* ===================================================================== *)

Section UpdateAction.
Context {Row Data : Type} (V : ViewSet Row Data).

(** An update whose body fails validation answers with that error. *)
Lemma dispatch_update_Raise (a : action) (partial : bool) (req : Request.t)
    (st : Store.t) (obj : instance Row) (e : api_error) :
  (a = Update ∧ partial = false) ∨ (a = PartialUpdate ∧ partial = true) →
  check_permissions V a req = Ok () →
  http_actions V a = true →
  get_object V a req st = Ok obj →
  run_validation V st req (Some obj) partial = Raise e →
  dispatch V a req st = (Error e, st).
Proof.
  intros Ha Hp Hr Hg Hv. unfold dispatch, update_action.
  rewrite Hp, Hr. simpl.
  destruct Ha as [[-> ->]|[-> ->]]; by rewrite Hg; simpl; rewrite Hv.
Qed.

(** An update whose body validates answers 200 with what [save] wrote. *)
Lemma dispatch_update_Ok (a : action) (partial : bool) (req : Request.t)
    (st st' : Store.t) (obj obj' : instance Row) (d : Data) :
  (a = Update ∧ partial = false) ∨ (a = PartialUpdate ∧ partial = true) →
  check_permissions V a req = Ok () →
  http_actions V a = true →
  get_object V a req st = Ok obj →
  run_validation V st req (Some obj) partial = Ok d →
  save V st (Some obj) d = Ok (obj', st') →
  dispatch V a req st = (HTTP_200 obj'.1 obj'.2, st').
Proof.
  intros Ha Hp Hr Hg Hv Hs. unfold dispatch, update_action.
  rewrite Hp, Hr. simpl.
  destruct Ha as [[-> ->]|[-> ->]];
    by rewrite Hg; simpl; rewrite Hv; simpl; rewrite Hs.
Qed.
End UpdateAction.

(** Without search terms, the caller's own edge is the object of the
    detail actions on its key. *)
Lemma follow_get_object_own (unique_constraint : bool) (a : action)
    (req : Request.t) (st : Store.t) (u : instance User.t) (pk : Z)
    (f : Follow.t) :
  Request.user req = Some u →
  Request.kwargs req !! "pk" = Some pk →
  Request.search req = [] →
  Store.follows st !! pk = Some f →
  Follow.user f = u.1 →
  get_object (FollowView unique_constraint) a req st = Ok (pk, f).
Proof.
  intros Hu Hk Hs Hf Hfu.
  assert (Hl : SearchFilter req st (user_followers st u) !! pk = Some f).
  { apply follow_queryset_lookup. repeat split; auto.
    rewrite Hs. by intros term ?%elem_of_nil. }
  unfold get_object, get_object_or_404, check_object_permissions. simpl.
  unfold FollowViewSet.get_queryset. rewrite Hu. simpl. by rewrite Hk, Hl.
Qed.

(** X12.  The self-follow check also guards updates: a PUT or PATCH by a
    user on an edge of their own whose [following] names that user is
    refused with the self-follow message, and the edge stays as it is. *)
Theorem follow_update_self_follow_rejected
    (unique_constraint : bool) (a : action) (req : Request.t) (st : Store.t)
    (u : instance User.t) (pk : Z) (f : Follow.t) :
  a = Update ∨ a = PartialUpdate →
  NoDup (usernames st) →
  Store.users st !! u.1 = Some u.2 →
  Request.user req = Some u →
  Request.kwargs req !! "pk" = Some pk →
  Request.search req = [] →
  Store.follows st !! pk = Some f →
  Follow.user f = u.1 →
  Request.data req !! "following" = Some (JStr (User.username u.2)) →
  User.username u.2 ≠ "" →
  ∃ detail,
    dispatch (FollowView unique_constraint) a req st
      = (Error (ValidationError detail), st) ∧
    ("following", FollowSerializer.self_follow_message) ∈ detail.
Proof.
  intros Ha Hnd Hus Hu Hk Hs Hf Hfu Hdata Hne.
  set (partial := match a with PartialUpdate => true | _ => false end).
  assert (Hfield : FollowSerializer.following_field st req partial
                   = Invalid FollowSerializer.self_follow_message).
  { rewrite (following_field_self st req partial u _ Hnd Hus Hu Hdata);
      [|done|done].
    by destruct (User.username u.2). }
  pose proof (user_field_no_exception st req partial Hnd) as Hx.
  set (errs := (field_errors "user" (FollowSerializer.user_field st req partial)
                ++ [("following", FollowSerializer.self_follow_message)])%list).
  assert (Hin : ("following", FollowSerializer.self_follow_message) ∈ errs)
    by (apply elem_of_app; right; by left).
  exists errs. split; [|done].
  apply (dispatch_update_Raise (FollowView unique_constraint) a partial req st
           (pk, f)).
  - by destruct Ha as [-> | ->]; [left|right].
  - unfold check_permissions. simpl. unfold is_authenticated. by rewrite Hu.
  - done.
  - by apply (follow_get_object_own unique_constraint a req st u).
  - simpl. unfold FollowSerializer.run_validation,
      FollowSerializer.to_internal_value, to_internal_value_result.
    rewrite Hfield. simpl. rewrite Hx. fold errs.
    clearbody errs. destruct errs; [by inversion Hin|done].
Qed.

Lemma follow_update_self_follow_rejected_witness :
  ∃ detail,
    dispatch (FollowView true) PartialUpdate bob_refollows_bob demo
      = (Error (ValidationError detail), demo) ∧
    ("following", FollowSerializer.self_follow_message) ∈ detail.
Proof.
  apply (follow_update_self_follow_rejected true PartialUpdate
           bob_refollows_bob demo bob 1 bob_alice).
  - by right.
  - apply (bool_decide_unpack _). by vm_compute.
  - reflexivity.
  - reflexivity.
  - reflexivity.
  - reflexivity.
  - reflexivity.
  - reflexivity.
  - reflexivity.
  - discriminate.
Defined.

(** X16.  Deleting one's own edge removes that edge and nothing else: a
    DELETE by the follower, without search terms, is answered 204, the key
    of the edge is gone from the Follow table, every other edge and the
    sequence are as before, and no other table changes. *)
Theorem follow_destroy_own_edge
    (unique_constraint : bool) (req : Request.t) (st : Store.t)
    (u : instance User.t) (pk : Z) (f : Follow.t) :
  Request.user req = Some u →
  Request.kwargs req !! "pk" = Some pk →
  Request.search req = [] →
  Store.follows st !! pk = Some f →
  Follow.user f = u.1 →
  dispatch (FollowView unique_constraint) Destroy req st
  = (HTTP_204,
     Store.with_follows st (base.delete pk (Store.follows st))
       (Store.follow_seq st)).
Proof.
  intros Hu Hk Hs Hf Hfu.
  pose proof (follow_get_object_own unique_constraint Destroy req st u pk f
                Hu Hk Hs Hf Hfu) as Hg.
  unfold dispatch, check_permissions. simpl. unfold is_authenticated.
  rewrite Hu. simpl. by rewrite Hg.
Qed.

Lemma follow_destroy_own_edge_witness :
  dispatch (FollowView true) Destroy bob_on_edge_1 demo
  = (HTTP_204,
     Store.with_follows demo (base.delete 1 (Store.follows demo))
       (Store.follow_seq demo)).
Proof.
  apply (follow_destroy_own_edge true bob_on_edge_1 demo bob 1 bob_alice);
    reflexivity.
Defined.

(** X15.  The follower can redirect an edge: a PUT or PATCH on an edge of
    the caller that names another existing user in [following], leaves
    [user] out and does not repeat another edge of the caller is answered
    200; the edge keeps its key and its follower and now leads to the
    named user, and nothing else changes. *)
Theorem follow_update_accepted
    (unique_constraint : bool) (a : action) (req : Request.t) (st : Store.t)
    (u w : instance User.t) (pk : Z) (f : Follow.t) :
  a = Update ∨ a = PartialUpdate →
  NoDup (usernames st) →
  Request.user req = Some u →
  Request.kwargs req !! "pk" = Some pk →
  Request.search req = [] →
  Store.follows st !! pk = Some f →
  Follow.user f = u.1 →
  Request.data req !! "user" = None →
  Request.data req !! "following" = Some (JStr (User.username w.2)) →
  Store.users st !! w.1 = Some w.2 →
  User.username w.2 ≠ "" →
  w.1 ≠ u.1 →
  (u.1, w.1) ∉ pairs_of (base.delete pk (Store.follows st)) →
  dispatch (FollowView unique_constraint) a req st
  = (HTTP_200 pk {| Follow.user := u.1; Follow.following := w.1 |},
     Store.with_follows st
       (<[pk := {| Follow.user := u.1; Follow.following := w.1 |}]>
          (Store.follows st))
       (Store.follow_seq st)).
Proof.
  intros Ha Hnd Hu Hk Hs Hf Hfu Hnone Hdata Hw Hne Hother Hnew'.
  assert (Hnew : ∀ k g, Store.follows st !! k = Some g → k ≠ pk →
            ¬ (Follow.user g = u.1 ∧ Follow.following g = w.1)).
  { intros k g Hkg Hk' [E1 E2]. apply Hnew'. unfold pairs_of.
    apply list_elem_of_fmap. exists (k, g). split; [by simpl; rewrite E1, E2|].
    apply elem_of_map_to_list. by rewrite lookup_delete_ne. }
  assert (Hself : FollowSerializer.is_request_user req w = false).
  { unfold FollowSerializer.is_request_user. rewrite Hu.
    by apply bool_decide_eq_false_2. }
  set (partial := match a with PartialUpdate => true | _ => false end).
  set (row := {| Follow.user := u.1; Follow.following := w.1 |}).
  set (d := {| FollowSerializer.user :=
                 if partial then None else Some (Some u);
               FollowSerializer.following := Some w |}).
  assert (Hq : qs_exists (λ k g,
             bool_decide (Some k ≠ Some pk) &&
             bool_decide (Follow.user g = u.1) &&
             bool_decide (Follow.following g = w.1)) (Store.follows st)
           = false).
  { apply qs_exists_false. intros k g Hkg. simpl.
    destruct (bool_decide (Some k ≠ Some pk)) eqn:E0; [|done].
    destruct (bool_decide (Follow.user g = u.1)) eqn:E1; [|done].
    destruct (bool_decide (Follow.following g = w.1)) eqn:E2; [|done].
    apply bool_decide_eq_true_1 in E0, E1, E2.
    destruct (Hnew k g Hkg); [congruence|done]. }
  assert (Hv : FollowSerializer.run_validation st req (Some (pk, f)) partial
               = Ok d).
  { unfold FollowSerializer.run_validation, FollowSerializer.to_internal_value.
    rewrite (following_field_other st req partial w Hnd Hw Hdata Hne Hself).
    assert (Huf : FollowSerializer.user_field st req partial
                  = if partial then SkipField else Value (Some u)).
    { unfold FollowSerializer.user_field, RelatedField_run_validation,
        Field_run_validation, FollowSerializer.CurrentUserDefault.
      rewrite Hnone, Hu. by destruct partial. }
    rewrite Huf.
    unfold FollowSerializer.UniqueTogetherValidator, d.
    destruct partial; simpl; rewrite ?Hfu, Hq; done. }
  assert (Hsave : FollowSerializer.save unique_constraint st (Some (pk, f)) d
            = Ok ((pk, row),
                  Store.with_follows st (<[pk := row]> (Store.follows st))
                    (Store.follow_seq st))).
  { assert (T : follow_pair_taken st pk row = false).
    { apply qs_exists_false. intros k g Hkg. simpl.
      destruct (bool_decide (k ≠ pk)) eqn:E0; [|done].
      destruct (bool_decide (Follow.user g = u.1)) eqn:E1; [|done].
      destruct (bool_decide (Follow.following g = w.1)) eqn:E2; [|done].
      apply bool_decide_eq_true_1 in E0, E1, E2.
      by destruct (Hnew k g Hkg). }
    unfold FollowSerializer.save, FollowSerializer.update, d.
    destruct partial; simpl; rewrite ?Hfu; fold row;
      by rewrite T, andb_false_r. }
  apply (dispatch_update_Ok (FollowView unique_constraint) a partial req st _
           (pk, f) (pk, row) d).
  - by destruct Ha as [-> | ->]; [left|right].
  - unfold check_permissions. simpl. unfold is_authenticated. by rewrite Hu.
  - done.
  - by apply (follow_get_object_own unique_constraint a req st u).
  - exact Hv.
  - exact Hsave.
Qed.

Lemma follow_update_accepted_witness :
  dispatch (FollowView true) PartialUpdate bob_refollows_carol demo
  = (HTTP_200 1 bob_carol,
     Store.with_follows demo (<[1 := bob_carol]> (Store.follows demo))
       (Store.follow_seq demo)).
Proof.
  apply (follow_update_accepted true PartialUpdate bob_refollows_carol demo
           bob carol 1 bob_alice).
  - by right.
  - apply (bool_decide_unpack _). by vm_compute.
  - reflexivity.
  - reflexivity.
  - reflexivity.
  - reflexivity.
  - reflexivity.
  - reflexivity.
  - reflexivity.
  - reflexivity.
  - discriminate.
  - by vm_compute.
  - apply (bool_decide_unpack _). by vm_compute.
Defined.

(** X17.  The search filter also applies to the detail actions: when some
    search term of the request does not occur in the username of the user
    an edge leads to, a retrieve, update, partial update or delete of that
    edge by its follower is answered as not found, and the edge stays. *)
Theorem follow_detail_filtered_out
    (unique_constraint : bool) (a : action) (req : Request.t) (st : Store.t)
    (u : instance User.t) (pk : Z) (f : Follow.t) (w : User.t)
    (term : string) :
  a = Retrieve ∨ a = Update ∨ a = PartialUpdate ∨ a = Destroy →
  Request.user req = Some u →
  Request.kwargs req !! "pk" = Some pk →
  Store.follows st !! pk = Some f →
  Store.users st !! Follow.following f = Some w →
  term ∈ Request.search req →
  icontains (User.username w) term = false →
  dispatch (FollowView unique_constraint) a req st = (Error Http404, st).
Proof.
  intros Ha Hu Hk Hf Hw Hin Hno.
  apply (dispatch_get_object_Raise (FollowView unique_constraint)).
  - destruct Ha as [->|[->|[->| ->]]]; auto.
  - by destruct Ha as [->|[->|[->| ->]]].
  - unfold check_permissions. simpl. unfold is_authenticated. by rewrite Hu.
  - done.
  - apply (get_object_404 (FollowView unique_constraint) a req st
             (user_followers st u) pk); auto.
    + simpl. unfold FollowViewSet.get_queryset. by rewrite Hu.
    + simpl. destruct (SearchFilter req st (user_followers st u) !! pk)
        as [g|] eqn:E; [|done].
      apply follow_queryset_lookup in E as (Hg & _ & Hterms).
      assert (g = f) as -> by congruence.
      destruct (Hterms term Hin) as (w' & Hw' & Hyes). congruence.
Qed.

Lemma follow_detail_filtered_out_witness :
  dispatch (FollowView true) Destroy
    {| Request.user := Some bob; Request.data := ∅;
       Request.kwargs := {[ "pk" := 2 ]}; Request.search := ["ali"] |}
    demo_two
  = (Error Http404, demo_two).
Proof.
  apply (follow_detail_filtered_out true Destroy _ demo_two bob 2 bob_carol
           carol.2 "ali").
  - by repeat right.
  - reflexivity.
  - reflexivity.
  - reflexivity.
  - reflexivity.
  - by left.
  - reflexivity.
Defined.

(* ===================================================================== *)
(** * What the API never writes *)
(* ===================================================================== *)

(** Validation of a post fills no author. *)
Lemma post_validation_read_only (st : Store.t) (req : Request.t)
    (partial : bool) (d : PostSerializer.validated_data) :
  PostSerializer.to_internal_value st req partial = Ok d →
  PostSerializer.author d = None.
Proof.
  unfold PostSerializer.to_internal_value, to_internal_value_result.
  destruct (first_exception _); [done|].
  destruct (_ ++ _)%list; [|done].
  by intros [= <-].
Qed.

(** X14.  A Post update, full or partial, never changes an author:
    whatever the request, a post stored before the call is stored after it
    with the same author, and the same request with any [author] value in
    its body has the same outcome. *)
Theorem post_update_keeps_author
    (a : action) (req : Request.t) (st : Store.t) (pk : Z) (p : Post.t) :
  a = Update ∨ a = PartialUpdate →
  Store.posts st !! pk = Some p →
  (∃ p', Store.posts (dispatch PostView a req st).2 !! pk = Some p' ∧
         Post.author p' = Post.author p) ∧
  ∀ v, dispatch PostView a
         (Request.with_data req (<["author" := v]> (Request.data req))) st
       = dispatch PostView a req st.
Proof.
  intros Ha Hp. split.
  - destruct (dispatch_store PostView a req st)
      as [E|[[-> _]|[[_ (obj & partial & d & obj' & Hg & Hv & Hs)]|[-> _]]]].
    + rewrite E. by exists p.
    + by destruct Ha.
    + apply get_object_Ok in Hg as (qs & Hq & _ & Hl & _).
      simpl in Hq, Hl. injection Hq as <-.
      apply (post_validation_read_only st req partial) in Hv.
      simpl in Hs. unfold PostSerializer.update in Hs.
      rewrite Hv in Hs. injection Hs as _ <-. simpl.
      destruct (decide (obj.1 = pk)) as [<-|Hne].
      * rewrite lookup_insert_eq. eexists. split; [done|].
        simpl. by replace p with obj.2 by congruence.
      * rewrite lookup_insert_ne by done. by exists p.
    + by destruct Ha as [[=]|[=]].
  - intros v. set (req' := Request.with_data req _).
    assert (Hg : ∀ b, get_object PostView b req' st
                      = get_object PostView b req st) by done.
    assert (Hc : ∀ b, check_permissions PostView b req'
                      = check_permissions PostView b req) by done.
    destruct Ha as [-> | ->]; unfold dispatch, update_action;
      rewrite Hg, Hc; destruct (check_permissions _ _ _); try done;
      destruct (get_object _ _ _ _); try done; simpl;
      unfold PostSerializer.run_validation; subst req';
      by rewrite post_validation_ignores_author.
Qed.

Lemma post_update_keeps_author_witness :
  (∃ p', Store.posts (dispatch PostView Update alice_edits_post_1 demo).2 !! 1
           = Some p' ∧
         Post.author p' = alice.1) ∧
  ∀ v, dispatch PostView Update
         (Request.with_data alice_edits_post_1
            (<["author" := v]> (Request.data alice_edits_post_1))) demo
       = dispatch PostView Update alice_edits_post_1 demo.
Proof.
  apply (post_update_keeps_author Update alice_edits_post_1 demo 1
           {| Post.text := "hello"; Post.author := alice.1;
              Post.group := None |}).
  - by left.
  - reflexivity.
Defined.

(** The update of the witness goes through: the text is replaced. *)
Example alice_edits_post_1_run :
  (dispatch PostView Update alice_edits_post_1 demo).1
  = HTTP_200 1 {| Post.text := "bye"; Post.author := alice.1;
                  Post.group := None |}.
Proof. by vm_compute. Qed.

(** One call leaves the user and group tables alone. *)
Lemma api_step_users_groups (unique_constraint : bool) (c : call)
    (st : Store.t) :
  Store.users (api_step unique_constraint c st) = Store.users st ∧
  Store.groups (api_step unique_constraint c st) = Store.groups st.
Proof.
  destruct c as [[r a] req]. destruct r; unfold api_step.
  - destruct (dispatch_store PostView a req st)
      as [->|[[_ (d & obj & _ & H)]|[[_ (obj & p & d & obj' & _ & _ & H)]
         |[_ (obj & _ & ->)]]]]; [done| | |done].
    + revert H. simpl. unfold PostViewSet.perform_create, PostSerializer.save,
        PostSerializer.create. simpl.
      destruct (Request.user req); [|done]. by intros [= _ <-].
    + revert H. simpl. unfold PostSerializer.update.
      destruct (PostSerializer.author d) as [[?|]|]; [|done|];
        by intros [= _ <-].
  - destruct (dispatch_store CommentView a req st)
      as [->|[[_ (d & obj & _ & H)]|[[_ (obj & p & d & obj' & _ & _ & H)]
         |[_ (obj & _ & ->)]]]]; [done| | |done].
    + revert H. simpl. unfold CommentViewSet.perform_create,
        get_object_or_404, CommentSerializer.save, CommentSerializer.create.
      destruct (Request.kwargs req !! "post_id") as [id|]; [|done].
      destruct (Store.posts st !! id); simpl; [|done].
      destruct (Request.user req); [|done]. by intros [= _ <-].
    + revert H. simpl. unfold CommentSerializer.update.
      destruct (CommentSerializer.author d) as [[?|]|]; [|done|];
        by intros [= _ <-].
  - destruct (dispatch_store GroupView a req st)
      as [->|[[_ (d & obj & _ & H)]|[[_ (obj & p & d & obj' & _ & _ & H)]
         |[_ (obj & _ & ->)]]]]; done.
  - destruct (dispatch_store (FollowView unique_constraint) a req st)
      as [->|[[_ (d & obj & _ & H)]|[[_ (obj & p & d & obj' & _ & _ & H)]
         |[_ (obj & _ & ->)]]]]; [done| | |done].
    + by apply follow_create_store in H as ->.
    + by apply follow_update_store in H as ->.
Qed.

(** X13.  No sequence of API calls writes the user table or the group
    table: both are the same after the calls as before, so usernames that
    were unique stay unique. *)
Theorem api_never_writes_users_or_groups
    (unique_constraint : bool) (cs : list call) (st : Store.t) :
  Store.users (api_run unique_constraint cs st) = Store.users st ∧
  Store.groups (api_run unique_constraint cs st) = Store.groups st ∧
  (NoDup (usernames st) →
   NoDup (usernames (api_run unique_constraint cs st))).
Proof.
  assert (H : Store.users (api_run unique_constraint cs st) = Store.users st ∧
              Store.groups (api_run unique_constraint cs st)
                = Store.groups st).
  { revert st. induction cs as [|c cs IH]; intros st; [done|].
    simpl. destruct (IH (api_step unique_constraint c st)) as [-> ->].
    apply api_step_users_groups. }
  destruct H as [Hu Hg]. repeat split; [done|done|].
  unfold usernames. by rewrite Hu.
Qed.

(* ===================================================================== *)
(** * No edge from a user to themselves *)
(* ===================================================================== *)

(** Left out of the body, [user] validates to the caller on a full
    validation and to nothing on a partial one. *)
Lemma follow_validated_user_absent (st : Store.t) (req : Request.t)
    (partial : bool) (d : FollowSerializer.validated_data) :
  Request.data req !! "user" = None →
  FollowSerializer.to_internal_value st req partial = Ok d →
  FollowSerializer.user d = if partial then None else Some (Request.user req).
Proof.
  intros Hnone. unfold FollowSerializer.to_internal_value,
    to_internal_value_result.
  assert (Huf : FollowSerializer.user_field st req partial
                = if partial then SkipField else Value (Request.user req)).
  { unfold FollowSerializer.user_field, RelatedField_run_validation,
      Field_run_validation, FollowSerializer.CurrentUserDefault.
    rewrite Hnone. by destruct partial. }
  rewrite Huf.
  destruct (first_exception _); [done|].
  destruct (_ ++ _)%list; [|done]. intros [= <-]. by destruct partial.
Qed.

(** One call keeps the Follow table free of self-follows, unless it is an
    update that names [user]. *)
Lemma api_step_no_self_follow (unique_constraint : bool) (c : call)
    (st : Store.t) :
  names_user_on_update c = false →
  no_self_follow st → no_self_follow (api_step unique_constraint c st).
Proof.
  intros Hc Hst. destruct c as [[r a] req]. unfold no_self_follow in *.
  destruct r; unfold api_step.
  1-3: match goal with
       | |- map_Forall _ (Store.follows ?s) =>
           destruct (other_resources_keep_follows a req st s) as [E1 _];
             [auto|by rewrite E1]
       end.
  destruct (dispatch_store (FollowView unique_constraint) a req st)
    as [E|[[Ha (d & obj & Hv & H)]
       |[[Ha (obj & p & d & obj' & Hg & Hv & H)]|[_ (obj & Hg & E)]]]].
  - by rewrite E.
  - pose proof (follow_create_store _ _ _ _ _ _ H) as ->.
    apply follow_create_row in H as (u & w & Hu & Hw & Hrow & _).
    apply follow_run_validation_Ok in Hv as [Hv _].
    pose proof (follow_validated_following st req false d w Hv Hw) as Hself.
    unfold FollowSerializer.is_request_user in Hself. rewrite Hu in Hself.
    apply bool_decide_eq_false_1 in Hself.
    simpl. apply map_Forall_insert_2; [|done].
    rewrite Hrow. simpl. congruence.
  - pose proof (follow_update_store _ _ _ _ _ _ H) as ->.
    apply follow_update_row in H as Hrow.
    apply follow_get_object in Hg as (u & Hu & Hk & Hl & Hfu).
    simpl in Hv. apply follow_run_validation_Ok in Hv as [Hv _].
    assert (Hnone : Request.data req !! "user" = None).
    { destruct Ha as [-> | ->]; simpl in Hc;
        apply bool_decide_eq_false_1 in Hc;
        (destruct (Request.data req !! "user"); [|done]);
        exfalso; apply Hc; by eexists. }
    pose proof (follow_validated_user_absent st req p d Hnone Hv) as Hdu.
    simpl. apply map_Forall_insert_2; [|done].
    rewrite Hrow. simpl.
    assert (Huser : match FollowSerializer.user d with
                    | Some (Some u0) => u0.1
                    | _ => Follow.user obj.2
                    end = u.1).
    { rewrite Hdu. destruct p; [done|]. by rewrite Hu. }
    rewrite Huser.
    destruct (FollowSerializer.following d) as [w|] eqn:Hw.
    + pose proof (follow_validated_following st req p d w Hv Hw) as Hself.
      unfold FollowSerializer.is_request_user in Hself. rewrite Hu in Hself.
      apply bool_decide_eq_false_1 in Hself. congruence.
    + rewrite <- Hfu. by apply (Hst _ _ Hl).
  - rewrite E. unfold delete_follow. simpl. by apply map_Forall_delete.
Qed.

(** X18.  The Follow table stays free of self-follows.  Starting from a
    table in which no edge leads from a user to themselves, no sequence
    of API calls produces such an edge, as long as no PUT or PATCH on a
    Follow edge in it carries a [user] key in its body: creations (with or
    without [user]), updates that leave [user] out, and deletes all keep
    the table free of self-follows. *)
Theorem follow_no_self_follow_kept
    (unique_constraint : bool) (cs : list call) (st : Store.t) :
  no_self_follow st →
  forallb (λ c, negb (names_user_on_update c)) cs = true →
  no_self_follow (api_run unique_constraint cs st).
Proof.
  revert st. induction cs as [|c cs IH]; intros st Hst Hcs; [done|].
  simpl in Hcs. apply andb_true_iff in Hcs as [Hc Hcs].
  apply negb_true_iff in Hc.
  simpl. apply IH; [|done]. by apply api_step_no_self_follow.
Qed.

Lemma follow_no_self_follow_kept_witness :
  no_self_follow (api_run true busy_calls demo).
Proof.
  apply (follow_no_self_follow_kept true busy_calls demo).
  - apply (bool_decide_unpack _). by vm_compute.
  - by vm_compute.
Defined.

(** Where the condition fails: bob's PUT on his edge with alice in both
    [user] and [following] passes [validate_following], which compares
    with the caller, and stores the edge from alice to alice. *)
Example follow_update_stores_self_follow :
  (dispatch (FollowView true) Update
     (request (Some bob) {[ "user" := JStr "alice"; "following" := JStr "alice" ]}
        {[ "pk" := 1 ]}) demo).1
  = HTTP_200 1 {| Follow.user := alice.1; Follow.following := alice.1 |}.
Proof. by vm_compute. Qed.
